(** * AI media calculator: the recommendation engine of [src/index.tsx]

    A shallow embedding of the pure computation inside [useRecommendation]
    ([getQualityScore], [getAverage], [calculateTimeRequirement],
    [calculateCostPerSecondUSD] and the body of [calculate]) together with
    the built-in catalog [DETAILED_PLATFORM_DATA], and the properties of the
    engine stated in the specification.

    Numbers.  The engine is embedded twice.  In the first embedding a
    JavaScript number is modelled by [num]: an exact rational, or one of the
    special values [Infinity], [-Infinity], [NaN].  Arithmetic on finite
    values is exact (binary64 rounding is idealised away); the special values
    follow IEEE-754 as JavaScript exposes them.  Zero is unsigned, so a
    positive value divided by zero is [Infinity].  It carries the properties
    that rounding does not touch: the catalog tables, the feasibility policy,
    the ranking, the scenarios on whole numbers, signs and infinities.

    The second embedding, [B64], restates the time estimator and the two mode
    computations over binary64 numbers with the rounding of every operation.
    It carries the two properties that are tight in exact arithmetic and that
    rounding decides: whether the estimate stays within the deadline, and the
    round trip between duration mode and cost mode. *)

From Stdlib Require Import QArith Qround Qabs ZArith List String Ascii Bool Lia Lqa.
From Stdlib Require Import Sorted Permutation DecimalString.
From Stdlib Require Floats Uint63.
Import ListNotations.

Local Open Scope Q_scope.

(* ================================================================= *)
(** ** JavaScript numbers *)

Module JS.

Inductive num : Type :=
| Fin (q : Q)
| PInf
| NInf
| NaN.

Definition zero : num := Fin 0.
Definition one : num := Fin 1.
Definition ofZ (z : Z) : num := Fin (inject_Z z).

(** The infinity whose sign is that of a comparison with zero; a zero
    operand gives [NaN] (as in [Infinity * 0]). *)
Definition inf_sign (c : comparison) : num :=
  match c with
  | Gt => PInf
  | Lt => NInf
  | Eq => NaN
  end.

Definition neg (x : num) : num :=
  match x with
  | Fin q => Fin (- q)
  | PInf => NInf
  | NInf => PInf
  | NaN => NaN
  end.

Definition add (x y : num) : num :=
  match x, y with
  | NaN, _ | _, NaN => NaN
  | Fin a, Fin b => Fin (a + b)
  | PInf, NInf | NInf, PInf => NaN
  | PInf, _ | _, PInf => PInf
  | NInf, _ | _, NInf => NInf
  end.

Definition sub (x y : num) : num := add x (neg y).

Definition mul (x y : num) : num :=
  match x, y with
  | NaN, _ | _, NaN => NaN
  | Fin a, Fin b => Fin (a * b)
  | Fin a, PInf | PInf, Fin a => inf_sign (a ?= 0)
  | Fin a, NInf | NInf, Fin a => inf_sign (0 ?= a)
  | PInf, PInf | NInf, NInf => PInf
  | PInf, NInf | NInf, PInf => NInf
  end.

Definition div (x y : num) : num :=
  match x, y with
  | NaN, _ | _, NaN => NaN
  | Fin a, Fin b => if Qeq_bool b 0 then inf_sign (a ?= 0) else Fin (a / b)
  | Fin _, PInf | Fin _, NInf => Fin 0
  | PInf, Fin b => match b ?= 0 with Lt => NInf | _ => PInf end
  | NInf, Fin b => match b ?= 0 with Lt => PInf | _ => NInf end
  | _, _ => NaN
  end.

(** Comparisons: every comparison with [NaN] is false. *)
Definition lt (x y : num) : bool :=
  match x, y with
  | Fin a, Fin b => match a ?= b with Lt => true | _ => false end
  | NInf, Fin _ | NInf, PInf | Fin _, PInf => true
  | _, _ => false
  end.

Definition le (x y : num) : bool :=
  match x, y with
  | Fin a, Fin b => match a ?= b with Gt => false | _ => true end
  | NInf, Fin _ | NInf, PInf | Fin _, PInf => true
  | PInf, PInf | NInf, NInf => true
  | _, _ => false
  end.

Definition gt (x y : num) : bool := lt y x.
Definition ge (x y : num) : bool := le y x.

(** [x === y] on numbers. *)
Definition strictEq (x y : num) : bool :=
  match x, y with
  | Fin a, Fin b => Qeq_bool a b
  | PInf, PInf | NInf, NInf => true
  | _, _ => false
  end.

(** [Math.min], [Math.max], [Math.ceil], [Math.floor]. *)
Definition min (x y : num) : num :=
  match x, y with
  | NaN, _ | _, NaN => NaN
  | _, _ => if lt x y then x else y
  end.

Definition max (x y : num) : num :=
  match x, y with
  | NaN, _ | _, NaN => NaN
  | _, _ => if lt x y then y else x
  end.

Definition ceil (x : num) : num :=
  match x with
  | Fin q => ofZ (Qceiling q)
  | _ => x
  end.

Definition floor (x : num) : num :=
  match x with
  | Fin q => ofZ (Qfloor q)
  | _ => x
  end.

(** Truthiness of a number: [0] and [NaN] are falsy. *)
Definition truthy (x : num) : bool :=
  match x with
  | Fin q => negb (Qeq_bool q 0)
  | NaN => false
  | _ => true
  end.

(** [x || d] on numbers. *)
Definition orElse (x d : num) : num := if truthy x then x else d.

(** Two numbers denote the same value. *)
Definition same (x y : num) : Prop :=
  match x, y with
  | Fin a, Fin b => a == b
  | PInf, PInf | NInf, NInf | NaN, NaN => True
  | _, _ => False
  end.

Definition isFin (x : num) : bool :=
  match x with Fin _ => true | _ => false end.

Definition isNaN (x : num) : bool :=
  match x with NaN => true | _ => false end.

(** A finite value that is a whole number. *)
Definition isInteger (x : num) : bool :=
  match x with
  | Fin q => Qeq_bool q (inject_Z (Qfloor q))
  | _ => false
  end.

(** Decimal digits of the fractional part, most significant first. *)
Fixpoint fracDigits (fuel : nat) (q : Q) : string :=
  match fuel with
  | O => EmptyString
  | S fuel' =>
      let t := q * 10 in
      let d := Qfloor t in
      let r := t - inject_Z d in
      (NilZero.string_of_int (Z.to_int d) ++
       (if Qeq_bool r 0 then EmptyString else fracDigits fuel' r))%string
  end.

(** Number to string, as a template literal renders it.  Whole numbers and
    the special values are rendered as JavaScript does; a fractional value is
    rendered sign, integer part, point, and at most 17 fractional digits (the
    engine only ever renders results of [Math.ceil] and the literal [1]). *)
Definition toString (x : num) : string :=
  match x with
  | NaN => "NaN"
  | PInf => "Infinity"
  | NInf => "-Infinity"
  | Fin q =>
      if Qeq_bool q (inject_Z (Qfloor q))
      then NilZero.string_of_int (Z.to_int (Qfloor q))
      else
        let a := Qabs q in
        ((if Qle_bool 0 q then EmptyString else "-") ++
         NilZero.string_of_int (Z.to_int (Qfloor a)) ++ "." ++
         fracDigits 17 (a - inject_Z (Qfloor a)))%string
  end.

(** [hay.includes(needle)]. *)
Fixpoint includes (needle hay : string) : bool :=
  String.prefix needle hay ||
  match hay with
  | EmptyString => false
  | String _ rest => includes needle rest
  end.

End JS.

Abbreviation num := JS.num.
Abbreviation Fin := JS.Fin.
Abbreviation PInf := JS.PInf.
Abbreviation NInf := JS.NInf.
Abbreviation NaN := JS.NaN.

Declare Scope num_scope.
Delimit Scope num_scope with num.
Bind Scope num_scope with JS.num.
Infix "+" := JS.add : num_scope.
Infix "-" := JS.sub : num_scope.
Infix "*" := JS.mul : num_scope.
Infix "/" := JS.div : num_scope.
Infix "<?" := JS.lt (at level 70) : num_scope.
Infix "<=?" := JS.le (at level 70) : num_scope.
Infix ">?" := JS.gt (at level 70) : num_scope.
Infix ">=?" := JS.ge (at level 70) : num_scope.
Infix "==" := JS.same (at level 70) : num_scope.

(** Numeric literals of the source, written as rationals. *)
Definition int (z : Z) : num := JS.ofZ z.
Definition dec (z : Z) (p : positive) : num := Fin (z # p).

(* ================================================================= *)
(** ** Data model (the [TYPES] section of the source) *)

Inductive CalculationMode := mode_cost | mode_duration.

Inductive Resolution := r720p | r1080p | r1080pPlus | r4K.

Inductive CostUnit :=
  cu_credits | cu_tokens | cu_compute_seconds | cu_clips | cu_per_second | cu_ratio.

Inductive QuotaUnit :=
  qu_credits | qu_tokens | qu_compute_seconds | qu_clips | qu_unlimited.

Inductive Feature :=
  MotionBrush | KeyframeEditor | StoryboardExport | AudioVideoSync.

Inductive ApiAvailable := api_Yes | api_No | api_Limited | api_Enterprise.

Inductive Level := beginner | intermediate | expert.

Inductive AudioNeeds := audio_none | audio_basic | audio_advanced.

(** [cost: number | [number, number]] *)
Inductive Cost :=
| Single (c : num)
| Range (lo hi : num).

Record Option := mkOption {
  modelId : string;
  modelName : string;
  maxDurationSec : num;
  resolution : Resolution;
  audio : bool;
  costUnit : CostUnit;
  cost : Cost;
  features : option (list Feature)
}.

Record Plan := mkPlan {
  planName : string;
  monthlyCost : num;
  quota : num;
  quotaUnit : QuotaUnit;
  maxParallel : num;
  maxParallelAPI : option num;
  avgTimePerClipMin : num;
  overageCost : option (num * string);
  options : list Option
}.

Record Platform := mkPlatform {
  platformName : string;
  apiAvailable : ApiAvailable;
  rateLimit : option string;
  setupDays : num;
  techLevel : Level;
  plans : list Plan
}.

Record RecommendationInputs := mkInputs {
  calcMode : CalculationMode;
  deadline : num;
  duration : num;
  budget : num;
  costQuality : num;
  speedCost : num;
  audioNeeds : AudioNeeds;
  expertise : Level;
  enableComparison : bool;
  traditionalCost : num;
  traditionalTime : num
}.

Record ScoredPlatform := mkScored {
  sp_platformName : string;
  sp_planName : string;
  sp_option : Option;
  sp_score : num;
  sp_totalCost : num;
  sp_rawGenerationTimeDays : num;
  sp_costPerSecondUSD : num;
  sp_qualityScore : num;
  sp_feasible : bool;
  sp_reasons : list string;
  sp_accountsNeeded : num;
  sp_apiAvailable : ApiAvailable;
  sp_achievableDuration : num;
  sp_plansAffordable : option num;
  sp_monthlyCost : num
}.

Definition CostUnit_eqb (a b : CostUnit) : bool :=
  match a, b with
  | cu_credits, cu_credits | cu_tokens, cu_tokens
  | cu_compute_seconds, cu_compute_seconds | cu_clips, cu_clips
  | cu_per_second, cu_per_second | cu_ratio, cu_ratio => true
  | _, _ => false
  end.

Definition QuotaUnit_eqb (a b : QuotaUnit) : bool :=
  match a, b with
  | qu_credits, qu_credits | qu_tokens, qu_tokens
  | qu_compute_seconds, qu_compute_seconds | qu_clips, qu_clips
  | qu_unlimited, qu_unlimited => true
  | _, _ => false
  end.

Definition Feature_eqb (a b : Feature) : bool :=
  match a, b with
  | MotionBrush, MotionBrush | KeyframeEditor, KeyframeEditor
  | StoryboardExport, StoryboardExport | AudioVideoSync, AudioVideoSync => true
  | _, _ => false
  end.

(** [option.features?.includes(f)]: falsy when the field is absent. *)
Definition hasFeature (o : Option) (f : Feature) : bool :=
  match features o with
  | Some fs => existsb (Feature_eqb f) fs
  | None => false
  end.

(** Lookup in an object literal used as a table keyed by strings; [None]
    stands for [undefined].  Only the literal's own keys are modelled. *)
Fixpoint lookup (table : list (string * num)) (key : string) : option num :=
  match table with
  | [] => None
  | (k, v) :: rest => if String.eqb k key then Some v else lookup rest key
  end.

(** [table[key] || d] *)
Definition lookupOr (table : list (string * num)) (key : string) (d : num) : num :=
  match lookup table key with
  | Some v => JS.orElse v d
  | None => d
  end.

(* ================================================================= *)
(** ** The engine ([useRecommendation]) *)

Local Open Scope num_scope.

Definition resolutionScores (r : Resolution) : num :=
  match r with
  | r720p => int 7
  | r1080p => int 8
  | r1080pPlus => int 9
  | r4K => int 10
  end.

Definition planHierarchy : list (string * num) :=
  [ ("Personal", int 0); ("Lite (Annual)", int 0); ("Lite (Monthly)", int 0);
    ("Plus", int 0); ("Apprentice", int 0);
    ("Standard (Annual)", dec 5 10); ("Standard (Monthly)", dec 5 10);
    ("Artisan Unlimited", dec 5 10); ("API Basic", dec 5 10);
    ("Pro (Annual)", int 1); ("Pro (Monthly)", int 1);
    ("Maestro Unlimited", int 1); ("API Standard", int 1);
    ("Premier", dec 15 10); ("Team", dec 15 10); ("API Pro", dec 15 10);
    ("Vertex AI API", int 2); ("Ultra Subscription", int 2);
    ("Enterprise", int 2) ]%string.

Definition platformReputation : list (string * num) :=
  [ ("Google Veo", dec 15 10); ("OpenAI Sora", int 1);
    ("LTX Studio", dec 5 10); ("Leonardo AI (API)", int 0);
    ("Leonardo AI (Web App)", int 0); ("Kling AI", dec (-5) 10) ]%string.

Definition getQualityScore (option : Option) (plan : Plan) (platform : Platform) : num :=
  let score := int 0 in
  let score := score + JS.orElse (resolutionScores (resolution option)) (int 6) in
  let score := if audio option then score + dec 5 10 else score in
  let score := score + lookupOr planHierarchy (planName plan) (int 0) in
  let score := if hasFeature option StoryboardExport then score + int 1 else score in
  let score := if hasFeature option KeyframeEditor then score + dec 5 10 else score in
  let score := if hasFeature option AudioVideoSync then score + int 1 else score in
  let score := score + lookupOr platformReputation (platformName platform) (int 0) in
  JS.min (int 10) score.

Definition getAverage (value : Cost) : num :=
  match value with
  | Range lo hi => (lo + hi) / int 2
  | Single c => c
  end.

(** The API gate shared by the time estimate and the duration-mode ceiling. *)
Definition canUseAPI (platform : Platform) (expertise : Level) : bool :=
  match apiAvailable platform with
  | api_Yes | api_Limited | api_Enterprise => true
  | api_No => false
  end &&
  match expertise with
  | expert | intermediate => true
  | beginner => false
  end.

(** [gate && plan.maxParallelAPI ? plan.maxParallelAPI : plan.maxParallel] *)
Definition pickParallel (gate : bool) (plan : Plan) : num :=
  match maxParallelAPI plan with
  | Some a => if gate && JS.truthy a then a else maxParallel plan
  | None => maxParallel plan
  end.

Record TimeRequirement := mkTime {
  timeDays : num;
  accountsNeeded : num
}.

Definition clipsNeededFor (durationMinutes : num) (option : Option) : num :=
  JS.ceil (durationMinutes * int 60 / maxDurationSec option).

Definition singleAccountTimeDays (durationMinutes : num) (option : Option)
    (plan : Plan) (platform : Platform) (expertise : Level) : num :=
  let clipsNeeded := clipsNeededFor durationMinutes option in
  let effectiveMaxParallel := pickParallel (canUseAPI platform expertise) plan in
  let totalWorkloadMinutes := clipsNeeded * avgTimePerClipMin plan in
  let totalWorkloadHours := totalWorkloadMinutes / int 60 in
  let singleAccountTimeHours := totalWorkloadHours / effectiveMaxParallel in
  (singleAccountTimeHours / int 8) + setupDays platform.

Definition calculateTimeRequirement (durationMinutes : num) (option : Option)
    (plan : Plan) (platform : Platform) (deadline : num) (expertise : Level)
    : TimeRequirement :=
  if durationMinutes <=? int 0 then mkTime (int 0) (int 1)
  else
    let singleAccountTimeDays :=
      singleAccountTimeDays durationMinutes option plan platform expertise in
    let accountsNeeded :=
      if singleAccountTimeDays >? deadline
      then JS.ceil (singleAccountTimeDays / deadline)
      else int 1 in
    let actualTimeDays := singleAccountTimeDays / accountsNeeded in
    mkTime actualTimeDays accountsNeeded.

Definition calculateCostPerSecondUSD (option : Option) (plan : Plan) : num :=
  let avgCostPerUnit := getAverage (cost option) in
  let durationSeconds := maxDurationSec option in
  if CostUnit_eqb (costUnit option) cu_per_second then avgCostPerUnit
  else if QuotaUnit_eqb (quotaUnit plan) qu_unlimited
          || JS.strictEq (quota plan) (int 0) then PInf
  else
    let costPerUnitUSD := monthlyCost plan / quota plan in
    match costUnit option with
    | cu_credits | cu_tokens | cu_clips =>
        (avgCostPerUnit * costPerUnitUSD) / durationSeconds
    | cu_ratio =>
        let computeSecondsPerVideoSecond := avgCostPerUnit in
        computeSecondsPerVideoSecond * costPerUnitUSD
    | _ => PInf
    end.

(** *** Cost mode: the cost of a target workload *)

Definition totalUnitsNeeded (duration : num) (option : Option) : num :=
  if CostUnit_eqb (costUnit option) cu_ratio
  then (duration * int 60) * getAverage (cost option)
  else clipsNeededFor duration option * getAverage (cost option).

Definition plansNeeded (duration : num) (option : Option) (plan : Plan) : num :=
  JS.ceil (totalUnitsNeeded duration option / quota plan).

Definition costModeTotalCost (duration : num) (option : Option) (plan : Plan) : num :=
  if QuotaUnit_eqb (quotaUnit plan) qu_unlimited then
    if CostUnit_eqb (costUnit option) cu_per_second
    then duration * int 60 * getAverage (cost option)
    else monthlyCost plan
  else
    if quota plan >? int 0
    then plansNeeded duration option plan * monthlyCost plan
    else PInf.

(** *** Duration mode: what a budget buys *)

Record BudgetUse := mkBudgetUse {
  bu_totalCost : num;
  bu_totalVideoSeconds : num;
  bu_plansAffordable : option num
}.

Definition durationModeBudget (budget : num) (option : Option) (plan : Plan) : BudgetUse :=
  if QuotaUnit_eqb (quotaUnit plan) qu_unlimited then
    if CostUnit_eqb (costUnit option) cu_per_second then
      if (budget >? int 0) && (getAverage (cost option) >? int 0)
      then mkBudgetUse budget (budget / getAverage (cost option)) None
      else mkBudgetUse budget (int 0) None
    else
      if budget >=? monthlyCost plan
      then mkBudgetUse (monthlyCost plan) PInf None
      else mkBudgetUse budget (int 0) None
  else
    if monthlyCost plan >? int 0 then
      let plansAffordable := JS.floor (budget / monthlyCost plan) in
      if plansAffordable >? int 0 then
        let totalQuota := plansAffordable * quota plan in
        let costPerClip := getAverage (cost option) in
        mkBudgetUse (plansAffordable * monthlyCost plan)
          (if costPerClip >? int 0 then
             if CostUnit_eqb (costUnit option) cu_ratio
             then totalQuota / costPerClip
             else (totalQuota / costPerClip) * maxDurationSec option
           else int 0)
          (Some plansAffordable)
      else mkBudgetUse budget (int 0) None
    else mkBudgetUse budget (int 0) None.

Definition maxClipsInDeadline (deadline : num) (plan : Plan) (platform : Platform)
    (expertise : Level) : num :=
  let effectiveMaxParallel := pickParallel (canUseAPI platform expertise) plan in
  (deadline * int 8 * int 60) / avgTimePerClipMin plan * effectiveMaxParallel.

Definition maxDurationFromTime (deadline : num) (option : Option) (plan : Plan)
    (platform : Platform) (expertise : Level) : num :=
  (maxClipsInDeadline deadline plan platform expertise * maxDurationSec option) / int 60.

(** *** The per-triple record built by the loop body *)

(** The mutable [result] object and the [reasons] array at the end of the
    mode-specific block. *)
Record Outcome := mkOutcome {
  achievableDuration : num;
  totalCost : num;
  rawGenerationTimeDays : num;
  resultAccountsNeeded : num;
  plansAffordable : option num;
  reasons : list string
}.

Definition requiresAccounts (k : num) : string :=
  ("Requires " ++ JS.toString k ++ " accounts")%string.

Definition overBudget : string := "Over budget".

Definition challengingDeadline (k : num) : string :=
  ("Challenging deadline: needs " ++ JS.toString k ++ " accounts")%string.

Definition costModeOutcome (inputs : RecommendationInputs) (platform : Platform)
    (plan : Plan) (option : Option) : Outcome :=
  let totalCost := costModeTotalCost (duration inputs) option plan in
  let timeReq :=
    calculateTimeRequirement (duration inputs) option plan platform
      (deadline inputs) (expertise inputs) in
  let reasons :=
    ((if timeDays timeReq >? deadline inputs
      then [requiresAccounts (accountsNeeded timeReq)] else []) ++
     (if totalCost >? budget inputs then [overBudget] else []))%list in
  mkOutcome (duration inputs) totalCost (timeDays timeReq)
    (accountsNeeded timeReq) None reasons.

Definition durationModeOutcome (inputs : RecommendationInputs) (platform : Platform)
    (plan : Plan) (option : Option) : Outcome :=
  let use := durationModeBudget (budget inputs) option plan in
  let totalVideoSeconds := bu_totalVideoSeconds use in
  let achievableDuration :=
    JS.min (totalVideoSeconds / int 60)
      (maxDurationFromTime (deadline inputs) option plan platform (expertise inputs)) in
  let timeReq :=
    calculateTimeRequirement achievableDuration option plan platform
      (deadline inputs) (expertise inputs) in
  let reasons :=
    if (timeDays timeReq >? deadline inputs) && (achievableDuration >? int 0)
    then [challengingDeadline (accountsNeeded timeReq)] else [] in
  mkOutcome achievableDuration (bu_totalCost use) (timeDays timeReq)
    (accountsNeeded timeReq) (bu_plansAffordable use) reasons.

Definition modeOutcome (inputs : RecommendationInputs) (platform : Platform)
    (plan : Plan) (option : Option) : Outcome :=
  match calcMode inputs with
  | mode_cost => costModeOutcome inputs platform plan option
  | mode_duration => durationModeOutcome inputs platform plan option
  end.

(** [(reasons.length === 0) ||
     (reasons.length === 1 && reasons[0].includes('accounts'))] *)
Definition feasibleOf (reasons : list string) : bool :=
  Nat.eqb (List.length reasons) 0 ||
  (Nat.eqb (List.length reasons) 1 &&
   match nth_error reasons 0 with
   | Some r => JS.includes "accounts" r
   | None => false
   end).

Definition expertiseMatch (user platformLevel : Level) : num :=
  match user, platformLevel with
  | beginner, beginner => int 20
  | beginner, intermediate => int 5
  | beginner, expert => int (-10)
  | intermediate, beginner => int 10
  | intermediate, intermediate => int 20
  | intermediate, expert => int 10
  | expert, beginner => int (-5)
  | expert, intermediate => int 10
  | expert, expert => int 20
  end.

Definition audioTerm (needs : AudioNeeds) (hasAudio : bool) : num :=
  match needs with
  | audio_advanced => if hasAudio then int 15 else int (-25)
  | audio_basic => if hasAudio then int 5 else int (-5)
  | audio_none => int 0
  end.

(** The parallelism used for scoring: the API cap only when the platform's
    API tier is exactly ['Yes'] and the user is not a beginner. *)
Definition scoringParallel (platform : Platform) (plan : Plan) (expertise : Level) : num :=
  pickParallel
    (match apiAvailable platform with api_Yes => true | _ => false end &&
     match expertise with beginner => false | _ => true end)
    plan.

Definition costScore (costPerSecondUSD : num) : num :=
  if (costPerSecondUSD >? int 0) && negb (JS.strictEq costPerSecondUSD PInf)
  then JS.max (int 0) (int 1 - (costPerSecondUSD / int 5)) * int 15
  else int 15.

Definition compositeScore (inputs : RecommendationInputs) (platform : Platform)
    (plan : Plan) (option : Option) (qualityScore costPerSecondUSD : num)
    (feasible : bool) (accounts achievable : num) : num :=
  let score := int 0 in
  let score := if feasible then score + int 50 else score in
  let score :=
    if (accounts >? int 1) && feasible then score - accounts * int 2 else score in
  let score :=
    score + JS.orElse (expertiseMatch (expertise inputs) (techLevel platform)) (int 0) in
  let score :=
    match audioNeeds inputs with
    | audio_none => score
    | needs => score + audioTerm needs (audio option)
    end in
  let effectiveMaxParallel := scoringParallel platform plan (expertise inputs) in
  let score := score + (effectiveMaxParallel * dec 5 10) * (speedCost inputs / int 100) in
  let qualityWeight := costQuality inputs / int 100 in
  let score :=
    score + (costScore costPerSecondUSD * (int 1 - qualityWeight)
             + (qualityScore / int 10 * int 15) * qualityWeight) in
  match calcMode inputs with
  | mode_duration =>
      if achievable >? int 0
      then score + JS.min (int 20) (achievable / int 2)
      else score
  | mode_cost => score
  end.

(** One iteration of the innermost loop of [calculate]. *)
Definition evaluate (inputs : RecommendationInputs) (platform : Platform)
    (plan : Plan) (option : Option) : ScoredPlatform :=
  let qualityScore := getQualityScore option plan platform in
  let costPerSecondUSD := calculateCostPerSecondUSD option plan in
  let result := modeOutcome inputs platform plan option in
  let feasible := feasibleOf (reasons result) in
  let score :=
    compositeScore inputs platform plan option qualityScore costPerSecondUSD
      feasible (resultAccountsNeeded result) (achievableDuration result) in
  mkScored (platformName platform) (planName plan) option score
    (totalCost result) (rawGenerationTimeDays result) costPerSecondUSD
    qualityScore feasible (reasons result) (resultAccountsNeeded result)
    (apiAvailable platform) (achievableDuration result)
    (plansAffordable result) (monthlyCost plan).

(** The array [scoredOptions] before sorting, in push order. *)
Definition scoredOptions (catalog : list Platform) (inputs : RecommendationInputs)
    : list ScoredPlatform :=
  flat_map (fun platform =>
    flat_map (fun plan =>
      map (evaluate inputs platform plan) (options plan))
      (plans platform))
    catalog.

(** The comparator passed to [sort]. *)
Definition compareFn (a b : ScoredPlatform) : num :=
  if negb (Bool.eqb (sp_feasible a) (sp_feasible b))
  then (if sp_feasible a then int (-1) else int 1)
  else sp_score b - sp_score a.

(** [Array.prototype.sort] with a comparator: a stable sort in which [x] is
    placed after [y] exactly when the comparator's result is positive (a
    [NaN] result counts as zero).  Written as a stable insertion sort. *)
Fixpoint insertBy {A : Type} (cmp : A -> A -> num) (x : A) (l : list A) : list A :=
  match l with
  | [] => [x]
  | y :: rest => if cmp x y >? int 0 then y :: insertBy cmp x rest else x :: l
  end.

Definition arraySort {A : Type} (cmp : A -> A -> num) (l : list A) : list A :=
  fold_right (insertBy cmp) [] l.

(** The value given to [setSortedPlatforms]. *)
Definition calculate (catalog : list Platform) (inputs : RecommendationInputs)
    : list ScoredPlatform :=
  arraySort compareFn (scoredOptions catalog inputs).

(** The value given to [setPrimaryRecommendation]:
    [scoredOptions.find(p => p.feasible) || scoredOptions[0] || null]. *)
Definition primaryRecommendation (catalog : list Platform)
    (inputs : RecommendationInputs) : option ScoredPlatform :=
  let sorted := calculate catalog inputs in
  match find sp_feasible sorted with
  | Some p => Some p
  | None => nth_error sorted 0
  end.

(* ================================================================= *)
(** ** The built-in catalog ([DETAILED_PLATFORM_DATA]) *)

Module Catalog.

Local Open Scope string_scope.

Definition opt (id name : string) (maxSec : num) (res : Resolution) (au : bool)
    (unit : CostUnit) (c : num) (fs : option (list Feature)) : Option :=
  mkOption id name maxSec res au unit (Single c) fs.

Definition plan (name : string) (monthly quotaAmount : num) (unit : QuotaUnit)
    (par : num) (parAPI : option num) (avg : num) (os : list Option) : Plan :=
  mkPlan name monthly quotaAmount unit par parAPI avg None os.

Definition klingStandard5s : Option :=
  opt "kling-std-5s" "Standard 5s" (int 5) r1080p false cu_credits (int 10)
    (Some [MotionBrush]).

Definition klingStandard : Plan :=
  plan "Standard" (int 10) (int 660) qu_credits (int 8) None (dec 15 10)
    [ klingStandard5s;
      opt "kling-std-10s" "Standard 10s" (int 10) r1080p false cu_credits (int 20)
        (Some [MotionBrush]) ].

Definition klingAI : Platform :=
  mkPlatform "Kling AI" api_Limited (Some "N/A") (dec 5 10) beginner
    [ klingStandard;
      plan "Pro" (int 37) (int 3000) qu_credits (int 8) None (dec 12 10)
        [ opt "kling-pro-5s" "Professional (High-Quality) 5s" (int 5) r1080pPlus true
            cu_credits (int 35) (Some [MotionBrush; KeyframeEditor]);
          opt "kling-pro-10s" "Professional (High-Quality) 10s" (int 10) r1080pPlus true
            cu_credits (int 70) (Some [MotionBrush; KeyframeEditor]) ];
      plan "Premier" (int 92) (int 8000) qu_credits (int 8) None (dec 10 10)
        [ opt "kling-prm-5s" "Professional (High-Quality) 5s" (int 5) r1080pPlus true
            cu_credits (int 35) (Some [MotionBrush; KeyframeEditor]);
          opt "kling-prm-10s" "Professional (High-Quality) 10s" (int 10) r1080pPlus true
            cu_credits (int 70) (Some [MotionBrush; KeyframeEditor]) ] ].

Definition leoApprenticeMotion1 : Option :=
  opt "leo-web-m1-a" "Motion 1.0" (int 3) r720p false cu_tokens (int 45) None.

Definition leoApprentice : Plan :=
  plan "Apprentice" (int 10) (int 8500) qu_tokens (int 5) None (dec 15 10)
    [ leoApprenticeMotion1;
      opt "leo-web-m2-a" "Motion 2.0" (int 5) r1080p false cu_tokens (int 200) None ].

Definition leonardoWeb : Platform :=
  mkPlatform "Leonardo AI (Web App)" api_No (Some "Daily token limit") (dec 5 10) beginner
    [ leoApprentice;
      plan "Artisan Unlimited" (int 24) (int 25500) qu_tokens (int 5) None (dec 12 10)
        [ opt "leo-web-m1-art" "Motion 1.0" (int 3) r720p false cu_tokens (int 45) None;
          opt "leo-web-m2-art" "Motion 2.0" (int 5) r1080p false cu_tokens (int 200) None ];
      plan "Maestro Unlimited" (int 48) (int 60000) qu_tokens (int 5) None (dec 10 10)
        [ opt "leo-web-m1-m" "Motion 1.0" (int 3) r720p false cu_tokens (int 45) None;
          opt "leo-web-m2-m" "Motion 2.0" (int 5) r1080p false cu_tokens (int 200) None ] ].

Definition leonardoAPI : Platform :=
  mkPlatform "Leonardo AI (API)" api_Yes (Some "Varies by plan") (dec 5 10) expert
    [ plan "API Basic" (int 9) (int 3500) qu_tokens (int 5) (Some (int 5)) (dec 15 10)
        [ opt "leo-api-motion-1-b" "Motion 1.0" (int 3) r720p false cu_tokens (int 45) None;
          opt "leo-api-motion-2-b" "Motion 2.0" (int 5) r1080p false cu_tokens (int 200) None ];
      plan "API Standard" (int 49) (int 25000) qu_tokens (int 5) (Some (int 10)) (dec 12 10)
        [ opt "leo-api-motion-1-s" "Motion 1.0" (int 3) r720p false cu_tokens (int 45) None;
          opt "leo-api-motion-2-s" "Motion 2.0" (int 5) r1080p false cu_tokens (int 200) None;
          opt "veo-3-leo-std" "Veo 3 (via API)" (int 8) r720p false cu_tokens (int 2500) None ];
      plan "API Pro" (int 299) (int 100000) qu_tokens (int 5) (Some (int 20)) (dec 10 10)
        [ opt "leo-api-motion-1-p" "Motion 1.0" (int 3) r720p false cu_tokens (int 45) None;
          opt "leo-api-motion-2-p" "Motion 2.0" (int 5) r1080p false cu_tokens (int 200) None;
          opt "veo-3-leo-pro" "Veo 3 (via API)" (int 8) r720p false cu_tokens (int 2500) None ] ].

Definition ltxStudio : Platform :=
  mkPlatform "LTX Studio" api_Enterprise (Some "N/A") (int 1) intermediate
    [ plan "Lite (Monthly)" (int 15) (int 8640) qu_compute_seconds (int 1) None (int 4)
        [ opt "ltx-lite-m" "Motion Standard" (int 15) r1080pPlus true cu_ratio (int 1) None ];
      plan "Lite (Annual)" (int 12) (int 8640) qu_compute_seconds (int 1) None (int 4)
        [ opt "ltx-lite-y" "Motion Standard" (int 15) r1080pPlus true cu_ratio (int 1) None ];
      plan "Standard (Monthly)" (int 35) (int 28800) qu_compute_seconds (int 1) None (dec 38 10)
        [ opt "ltx-std-m" "Motion Standard (Veo 2)" (int 15) r1080pPlus true cu_ratio (int 1)
            None ];
      plan "Standard (Annual)" (int 28) (int 28800) qu_compute_seconds (int 1) None (dec 38 10)
        [ opt "ltx-std-y" "Motion Standard (Veo 2)" (int 15) r1080pPlus true cu_ratio (int 1)
            None ];
      plan "Pro (Monthly)" (int 125) (int 90000) qu_compute_seconds (int 10) None (int 3)
        [ opt "ltx-pro-m" "Pipeline Full (Veo 3)" (int 15) r1080pPlus true cu_ratio (dec 15 10)
            (Some [StoryboardExport]) ];
      plan "Pro (Annual)" (int 100) (int 90000) qu_compute_seconds (int 10) None (int 3)
        [ opt "ltx-pro-y" "Pipeline Full (Veo 3)" (int 15) r1080pPlus true cu_ratio (dec 15 10)
            (Some [StoryboardExport]) ];
      plan "Enterprise" (int 500) (int 500000) qu_compute_seconds (int 20) None (dec 25 10)
        [ opt "ltx-ent" "Pipeline Full (Veo 3)" (int 15) r4K true cu_ratio (int 2)
            (Some [StoryboardExport]) ] ].

Definition soraPlus10 : Option :=
  opt "sora-plus-10" "Standard 10s" (int 10) r720p false cu_clips (int 0) None.

Definition soraPlus : Plan :=
  plan "Plus" (int 20) (int 0) qu_unlimited (int 2) None (dec 15 10) [ soraPlus10 ].

Definition openAISora : Platform :=
  mkPlatform "OpenAI Sora" api_Limited (Some "N/A") (dec 5 10) beginner
    [ soraPlus;
      plan "Pro" (int 200) (int 0) qu_unlimited (int 5) (Some (int 5)) (dec 8 10)
        [ opt "sora-pro-20" "Enhanced Quality 20s" (int 20) r1080p false cu_clips (int 0)
            None ] ].

Definition googleVeo : Platform :=
  mkPlatform "Google Veo" api_Yes (Some "10 req/min, 20 concurrent") (int 1) expert
    [ plan "Ultra Subscription" (int 250) (int 12500) qu_credits (int 5) None (dec 8 10)
        [ opt "veo-ultra-fast" "Veo 3 Fast" (int 8) r1080p true cu_credits (int 20)
            (Some [AudioVideoSync]);
          opt "veo-ultra-qual" "Veo 3 Quality" (int 8) r1080p true cu_credits (int 100)
            (Some [AudioVideoSync]) ];
      plan "Vertex AI API" (int 0) (int 0) qu_unlimited (int 1) (Some (int 20)) (dec 18 10)
        [ opt "veo-api-2.0" "Veo 2.0 GA" (int 8) r720p false cu_per_second (dec 50 100) None;
          opt "veo-api-3.0" "Veo 3.0 Preview" (int 8) r720p false cu_per_second (dec 50 100)
            None;
          opt "veo-api-3.0-audio" "Veo 3.0 with Audio" (int 8) r720p true cu_per_second
            (dec 75 100) (Some [AudioVideoSync]) ] ].

End Catalog.

Definition DETAILED_PLATFORM_DATA : list Platform :=
  [ Catalog.klingAI; Catalog.leonardoWeb; Catalog.leonardoAPI;
    Catalog.ltxStudio; Catalog.openAISora; Catalog.googleVeo ].

(** The initial state of the input form. *)
Definition defaultInputs : RecommendationInputs :=
  mkInputs mode_cost (int 7) (int 10) (int 1000) (int 50) (int 50)
    audio_none beginner false (int 10000) (int 14).

(* ================================================================= *)
(** ** The engine in binary64

    A JavaScript number is an IEEE-754 binary64 value and every arithmetic
    operation rounds its exact result to the nearest one (ties to even).
    [B64] restates the time estimator, the cost of a workload, what a budget
    buys, and the reasons and the feasibility flag of the loop body over the
    primitive binary64 numbers, operation for operation in the order of the
    source, so that a result is the one the running program computes.  The
    catalog is the one above: its literals are read through [ofNum]. *)

Module B64.

Import PrimFloat SpecFloat FloatOps.
Local Open Scope float_scope.

(** The binary64 value nearest to a whole number (the number itself up to
    [2^53]). *)
Definition ofZ (z : Z) : float :=
  if (Z.log2 (Z.abs z) <? 62)%Z then
    match z with
    | Z0 => 0
    | Zpos p => of_uint63 (Uint63.of_Z (Zpos p))
    | Zneg p => - of_uint63 (Uint63.of_Z (Zpos p))
    end
  else SF2Prim (binary_normalize prec emax z 0 false).

(** The value of a numeric literal: a decimal literal [n/10^k] denotes the
    binary64 value nearest to it, which is the rounded quotient of the two
    whole numbers when both are below [2^53]. *)
Definition ofNum (x : num) : float :=
  match x with
  | JS.Fin q => ofZ (Qnum q) / ofZ (Zpos (Qden q))
  | JS.PInf => infinity
  | JS.NInf => neg_infinity
  | JS.NaN => nan
  end.

(** The exact value of a binary64 number, used to render it in a template
    literal with [JS.toString]; whole numbers below [2^53], [Infinity] and
    [NaN] are rendered as JavaScript renders them. *)
Definition toNum (x : float) : num :=
  match Prim2SF x with
  | S754_zero _ => JS.Fin 0
  | S754_infinity s => if s then JS.NInf else JS.PInf
  | S754_nan => JS.NaN
  | S754_finite s m e =>
      let n := if s then Zneg m else Zpos m in
      JS.Fin (if (0 <=? e)%Z then inject_Z (n * 2 ^ e) else n # (2 ^ Z.to_pos (- e)))
  end.

(** [x > y], [x >= y] *)
Definition gt (x y : float) : bool := y <? x.
Definition ge (x y : float) : bool := y <=? x.

(** Truthiness of a number: [0], [-0] and [NaN] are falsy. *)
Definition truthy (x : float) : bool := negb (is_nan x || is_zero x).

Definition two52 : float := 4503599627370496.

(** The whole number nearest to [x] (ties to even), for [0 < |x| < 2^52]:
    between [2^52] and [2^53] consecutive binary64 values are 1 apart, so
    adding [2^52] to the magnitude rounds it to a whole number, and taking
    [2^52] away again is exact. *)
Definition nearestWhole (x : float) : float :=
  if 0 <? x then (x + two52) - two52 else (x - two52) + two52.

(** A zero result takes the sign of the argument ([Math.ceil(-0.5)] is
    [-0]). *)
Definition signedLike (x r : float) : float :=
  if is_zero r then (if get_sign x then neg_zero else zero) else r.

(** [Math.ceil] and [Math.floor]: a value of magnitude [2^52] or more is
    already whole; zeros, infinities and [NaN] are returned as they are. *)
Definition ceil (x : float) : float :=
  if abs x <? two52 then
    if is_zero x then x
    else let r := nearestWhole x in signedLike x (if r <? x then r + 1 else r)
  else x.

Definition floor (x : float) : float :=
  if abs x <? two52 then
    if is_zero x then x
    else let r := nearestWhole x in signedLike x (if x <? r then r - 1 else r)
  else x.

(** [Math.min] of two numbers: [NaN] if either is, and [-0] below [0]. *)
Definition min (x y : float) : float :=
  if is_nan x || is_nan y then nan
  else if x <? y then x
  else if y <? x then y
  else if get_sign x then x else y.

(** *** The request *)

Record RecommendationInputs := mkInputs {
  calcMode : CalculationMode;
  deadline : float;
  duration : float;
  budget : float;
  costQuality : float;
  speedCost : float;
  audioNeeds : AudioNeeds;
  expertise : Level;
  enableComparison : bool;
  traditionalCost : float;
  traditionalTime : float
}.

(** *** The time estimator *)

Definition getAverage (value : Cost) : float :=
  match value with
  | Range lo hi => (ofNum lo + ofNum hi) / 2
  | Single c => ofNum c
  end.

Definition pickParallel (gate : bool) (plan : Plan) : float :=
  match maxParallelAPI plan with
  | Some a => if gate && truthy (ofNum a) then ofNum a else ofNum (maxParallel plan)
  | None => ofNum (maxParallel plan)
  end.

Record TimeRequirement := mkTime {
  timeDays : float;
  accountsNeeded : float
}.

Definition clipsNeededFor (durationMinutes : float) (option : Option) : float :=
  ceil (durationMinutes * 60 / ofNum (maxDurationSec option)).

Definition singleAccountTimeDays (durationMinutes : float) (option : Option)
    (plan : Plan) (platform : Platform) (expertise : Level) : float :=
  let clipsNeeded := clipsNeededFor durationMinutes option in
  let effectiveMaxParallel := pickParallel (canUseAPI platform expertise) plan in
  let totalWorkloadMinutes := clipsNeeded * ofNum (avgTimePerClipMin plan) in
  let totalWorkloadHours := totalWorkloadMinutes / 60 in
  let singleAccountTimeHours := totalWorkloadHours / effectiveMaxParallel in
  (singleAccountTimeHours / 8) + ofNum (setupDays platform).

Definition calculateTimeRequirement (durationMinutes : float) (option : Option)
    (plan : Plan) (platform : Platform) (deadline : float) (expertise : Level)
    : TimeRequirement :=
  if durationMinutes <=? 0 then mkTime 0 1
  else
    let singleAccountTimeDays :=
      singleAccountTimeDays durationMinutes option plan platform expertise in
    let accountsNeeded :=
      if gt singleAccountTimeDays deadline
      then ceil (singleAccountTimeDays / deadline)
      else 1 in
    let actualTimeDays := singleAccountTimeDays / accountsNeeded in
    mkTime actualTimeDays accountsNeeded.

(** *** Cost mode: the cost of a target workload *)

Definition totalUnitsNeeded (duration : float) (option : Option) : float :=
  if CostUnit_eqb (costUnit option) cu_ratio
  then (duration * 60) * getAverage (cost option)
  else clipsNeededFor duration option * getAverage (cost option).

Definition plansNeeded (duration : float) (option : Option) (plan : Plan) : float :=
  ceil (totalUnitsNeeded duration option / ofNum (quota plan)).

Definition costModeTotalCost (duration : float) (option : Option) (plan : Plan) : float :=
  if QuotaUnit_eqb (quotaUnit plan) qu_unlimited then
    if CostUnit_eqb (costUnit option) cu_per_second
    then duration * 60 * getAverage (cost option)
    else ofNum (monthlyCost plan)
  else
    if gt (ofNum (quota plan)) 0
    then plansNeeded duration option plan * ofNum (monthlyCost plan)
    else infinity.

(** *** Duration mode: what a budget buys *)

Record BudgetUse := mkBudgetUse {
  bu_totalCost : float;
  bu_totalVideoSeconds : float;
  bu_plansAffordable : option float
}.

Definition durationModeBudget (budget : float) (option : Option) (plan : Plan) : BudgetUse :=
  if QuotaUnit_eqb (quotaUnit plan) qu_unlimited then
    if CostUnit_eqb (costUnit option) cu_per_second then
      if gt budget 0 && gt (getAverage (cost option)) 0
      then mkBudgetUse budget (budget / getAverage (cost option)) None
      else mkBudgetUse budget 0 None
    else
      if ge budget (ofNum (monthlyCost plan))
      then mkBudgetUse (ofNum (monthlyCost plan)) infinity None
      else mkBudgetUse budget 0 None
  else
    if gt (ofNum (monthlyCost plan)) 0 then
      let plansAffordable := floor (budget / ofNum (monthlyCost plan)) in
      if gt plansAffordable 0 then
        let totalQuota := plansAffordable * ofNum (quota plan) in
        let costPerClip := getAverage (cost option) in
        mkBudgetUse (plansAffordable * ofNum (monthlyCost plan))
          (if gt costPerClip 0 then
             if CostUnit_eqb (costUnit option) cu_ratio
             then totalQuota / costPerClip
             else (totalQuota / costPerClip) * ofNum (maxDurationSec option)
           else 0)
          (Some plansAffordable)
      else mkBudgetUse budget 0 None
    else mkBudgetUse budget 0 None.

Definition maxClipsInDeadline (deadline : float) (plan : Plan) (platform : Platform)
    (expertise : Level) : float :=
  let effectiveMaxParallel := pickParallel (canUseAPI platform expertise) plan in
  (deadline * 8 * 60) / ofNum (avgTimePerClipMin plan) * effectiveMaxParallel.

Definition maxDurationFromTime (deadline : float) (option : Option) (plan : Plan)
    (platform : Platform) (expertise : Level) : float :=
  (maxClipsInDeadline deadline plan platform expertise * ofNum (maxDurationSec option)) / 60.

(** *** The mode-specific block of the loop body and the feasibility flag *)

Record Outcome := mkOutcome {
  achievableDuration : float;
  totalCost : float;
  rawGenerationTimeDays : float;
  resultAccountsNeeded : float;
  plansAffordable : option float;
  reasons : list string
}.

Definition costModeOutcome (inputs : RecommendationInputs) (platform : Platform)
    (plan : Plan) (option : Option) : Outcome :=
  let totalCost := costModeTotalCost (duration inputs) option plan in
  let timeReq :=
    calculateTimeRequirement (duration inputs) option plan platform
      (deadline inputs) (expertise inputs) in
  let reasons :=
    ((if gt (timeDays timeReq) (deadline inputs)
      then [requiresAccounts (toNum (accountsNeeded timeReq))] else []) ++
     (if gt totalCost (budget inputs) then [overBudget] else []))%list in
  mkOutcome (duration inputs) totalCost (timeDays timeReq)
    (accountsNeeded timeReq) None reasons.

Definition durationModeOutcome (inputs : RecommendationInputs) (platform : Platform)
    (plan : Plan) (option : Option) : Outcome :=
  let use := durationModeBudget (budget inputs) option plan in
  let totalVideoSeconds := bu_totalVideoSeconds use in
  let achievableDuration :=
    min (totalVideoSeconds / 60)
      (maxDurationFromTime (deadline inputs) option plan platform (expertise inputs)) in
  let timeReq :=
    calculateTimeRequirement achievableDuration option plan platform
      (deadline inputs) (expertise inputs) in
  let reasons :=
    if gt (timeDays timeReq) (deadline inputs) && gt achievableDuration 0
    then [challengingDeadline (toNum (accountsNeeded timeReq))] else [] in
  mkOutcome achievableDuration (bu_totalCost use) (timeDays timeReq)
    (accountsNeeded timeReq) (bu_plansAffordable use) reasons.

Definition modeOutcome (inputs : RecommendationInputs) (platform : Platform)
    (plan : Plan) (option : Option) : Outcome :=
  match calcMode inputs with
  | mode_cost => costModeOutcome inputs platform plan option
  | mode_duration => durationModeOutcome inputs platform plan option
  end.

(** [result.feasible] *)
Definition feasible (inputs : RecommendationInputs) (platform : Platform)
    (plan : Plan) (option : Option) : bool :=
  feasibleOf (reasons (modeOutcome inputs platform plan option)).

(** *** Vocabulary of the statements about rounding *)

(** The initial state of the input form. *)
Definition defaultInputs : RecommendationInputs :=
  mkInputs mode_cost 7 10 1000 50 50 audio_none beginner false 10000 14.

Definition withMode (m : CalculationMode) (i : RecommendationInputs) : RecommendationInputs :=
  mkInputs m (deadline i) (duration i) (budget i) (costQuality i) (speedCost i)
    (audioNeeds i) (expertise i) (enableComparison i) (traditionalCost i)
    (traditionalTime i).

Definition withDeadline (d : float) (i : RecommendationInputs) : RecommendationInputs :=
  mkInputs (calcMode i) d (duration i) (budget i) (costQuality i) (speedCost i)
    (audioNeeds i) (expertise i) (enableComparison i) (traditionalCost i)
    (traditionalTime i).

Definition withDuration (d : float) (i : RecommendationInputs) : RecommendationInputs :=
  mkInputs (calcMode i) (deadline i) d (budget i) (costQuality i) (speedCost i)
    (audioNeeds i) (expertise i) (enableComparison i) (traditionalCost i)
    (traditionalTime i).

Definition withBudget (b : float) (i : RecommendationInputs) : RecommendationInputs :=
  mkInputs (calcMode i) (deadline i) (duration i) b (costQuality i) (speedCost i)
    (audioNeeds i) (expertise i) (enableComparison i) (traditionalCost i)
    (traditionalTime i).

(** The duration-mode result for a budget, fed back as the cost-mode target:
    the [totalCost] of the cost-mode block at that duration. *)
Definition roundTripCost (i : RecommendationInputs) (platform : Platform)
    (plan : Plan) (option : Option) : float :=
  let achieved :=
    achievableDuration (modeOutcome (withMode mode_duration i) platform plan option) in
  totalCost (modeOutcome (withDuration achieved (withMode mode_cost i)) platform plan option).

(** The whole numbers [lo], [lo+1], ..., [lo+n-1]. *)
Definition wholeNumbers (lo : Z) (n : nat) : list Z :=
  map (fun i => (lo + Z.of_nat i)%Z) (seq 0 n).

(** The estimate as a function of the four numbers it reads from the catalog
    (clip length, minutes per clip, parallel jobs, setup days). *)
Definition timeDaysFrom (maxSec avgTime parallel setup durationMinutes deadline : float)
    : float :=
  if durationMinutes <=? 0 then 0
  else
    let clipsNeeded := ceil (durationMinutes * 60 / maxSec) in
    let single := ((clipsNeeded * avgTime / 60) / parallel / 8) + setup in
    single / (if gt single deadline then ceil (single / deadline) else 1).

Definition estimatorNumbers (platform : Platform) (plan : Plan) (option : Option)
    (expertise : Level) : float * float * float * float :=
  (ofNum (maxDurationSec option), ofNum (avgTimePerClipMin plan),
   pickParallel (canUseAPI platform expertise) plan, ofNum (setupDays platform)).

Definition levels : list Level := [beginner; intermediate; expert].

(** The estimator's numbers for every triple of a catalog and every
    expertise level. *)
Definition allEstimatorNumbers (catalog : list Platform)
    : list (float * float * float * float) :=
  flat_map (fun platform =>
    flat_map (fun plan =>
      flat_map (fun option =>
        map (estimatorNumbers platform plan option) levels)
        (options plan))
      (plans platform))
    catalog.

(** The estimate is at most the deadline, and the guard [timeDays > deadline]
    is false. *)
Definition deadlineKept (p : float * float * float * float)
    (durationMinutes deadline : float) : bool :=
  let '(maxSec, avgTime, parallel, setup) := p in
  let t := timeDaysFrom maxSec avgTime parallel setup durationMinutes deadline in
  (t <=? deadline) && negb (gt t deadline).

Definition deadlineKeptOn (ps : list (float * float * float * float))
    (durations deadlines : list float) : bool :=
  forallb (fun p =>
    forallb (fun n => forallb (fun d => deadlineKept p n d) deadlines) durations)
    ps.

(** The seconds of video that [k] subscriptions of a quota-based plan buy
    (the innermost block of duration mode). *)
Definition secondsBought (k : float) (option : Option) (plan : Plan) : float :=
  let totalQuota := k * ofNum (quota plan) in
  let costPerClip := getAverage (cost option) in
  if gt costPerClip 0 then
    if CostUnit_eqb (costUnit option) cu_ratio
    then totalQuota / costPerClip
    else (totalQuota / costPerClip) * ofNum (maxDurationSec option)
  else 0.



End B64.

(** Binary64 literals and comparisons in the statements below. *)
Import PrimFloat.

(* ================================================================= *)
(** ** Vocabulary of the statements *)

(** A finite value within a closed interval of rationals. *)
Definition within (lo hi : Q) (x : num) : Prop :=
  exists q, x = Fin q /\ (lo <= q)%Q /\ (q <= hi)%Q.

(** *** Well-formed data: the invariants of the data model

    Catalog amounts are finite; prices, quotas, unit costs and setup times
    are non-negative; clip lengths, parallelism caps and the time per clip
    are positive.  A request has finite fields and a positive deadline. *)

Definition finPos (x : num) : bool := JS.isFin x && JS.lt (int 0) x.
Definition finNonneg (x : num) : bool := JS.isFin x && JS.le (int 0) x.

Definition wfCost (c : Cost) : bool :=
  match c with
  | Single v => finNonneg v
  | Range lo hi => finNonneg lo && finNonneg hi
  end.

Definition wfOption (o : Option) : bool :=
  finPos (maxDurationSec o) && wfCost (cost o).

Definition wfPlanFields (p : Plan) : bool :=
  finNonneg (monthlyCost p) && finNonneg (quota p) && finPos (maxParallel p) &&
  match maxParallelAPI p with Some a => finPos a | None => true end &&
  finPos (avgTimePerClipMin p).

Definition wfPlan (p : Plan) : bool :=
  wfPlanFields p && forallb wfOption (options p).

Definition wfPlatformFields (pl : Platform) : bool := finNonneg (setupDays pl).

Definition wfPlatform (pl : Platform) : bool :=
  wfPlatformFields pl && forallb wfPlan (plans pl).

Definition wfCatalog (catalog : list Platform) : bool := forallb wfPlatform catalog.

Definition wfInputs (i : RecommendationInputs) : bool :=
  finPos (deadline i) && JS.isFin (duration i) && JS.isFin (budget i) &&
  JS.isFin (costQuality i) && JS.isFin (speedCost i).

(** What well-formedness says about a plan and about a request, field by
    field. *)
Record PlanFacts (p : Plan) : Prop := mkPlanFacts {
  pf_monthly : exists q, monthlyCost p = Fin q /\ (0 <= q)%Q;
  pf_quota : exists q, quota p = Fin q /\ (0 <= q)%Q;
  pf_avgTime : exists q, avgTimePerClipMin p = Fin q /\ (0 < q)%Q;
  pf_parallel : forall gate, exists q, pickParallel gate p = Fin q /\ (0 < q)%Q
}.

Record InputFacts (i : RecommendationInputs) : Prop := mkInputFacts {
  if_deadline : exists q, deadline i = Fin q /\ (0 < q)%Q;
  if_duration : exists q, duration i = Fin q;
  if_budget : exists q, budget i = Fin q;
  if_costQuality : exists q, costQuality i = Fin q;
  if_speedCost : exists q, speedCost i = Fin q
}.

(** *** Ranking *)

(** [a] may stand before [b] in the ranked list: an infeasible entry is
    followed only by infeasible ones, and between two entries of the same
    feasibility the earlier score is at least the later one. *)
Definition rankedBefore (a b : ScoredPlatform) : Prop :=
  (sp_feasible a = false -> sp_feasible b = false) /\
  (sp_feasible a = sp_feasible b -> JS.ge (sp_score a) (sp_score b) = true).

(** The feasibility key of the order on its own. *)
Definition feasibleFirst (a b : ScoredPlatform) : Prop :=
  sp_feasible a = false -> sp_feasible b = false.

(** A score that can be compared with every other score. *)
Definition comparable (a : ScoredPlatform) : Prop := JS.isNaN (sp_score a) = false.

(** *** Requests derived from a request *)

Definition withMode (m : CalculationMode) (i : RecommendationInputs) : RecommendationInputs :=
  mkInputs m (deadline i) (duration i) (budget i) (costQuality i) (speedCost i)
    (audioNeeds i) (expertise i) (enableComparison i) (traditionalCost i)
    (traditionalTime i).

Definition withDuration (d : num) (i : RecommendationInputs) : RecommendationInputs :=
  mkInputs (calcMode i) (deadline i) d (budget i) (costQuality i) (speedCost i)
    (audioNeeds i) (expertise i) (enableComparison i) (traditionalCost i)
    (traditionalTime i).

Definition withBudget (b : num) (i : RecommendationInputs) : RecommendationInputs :=
  mkInputs (calcMode i) (deadline i) (duration i) b (costQuality i) (speedCost i)
    (audioNeeds i) (expertise i) (enableComparison i) (traditionalCost i)
    (traditionalTime i).

(** The duration-mode result for a budget, fed back as the cost-mode target. *)
Definition roundTripCost (i : RecommendationInputs) (platform : Platform)
    (plan : Plan) (option : Option) : num :=
  let achieved :=
    sp_achievableDuration (evaluate (withMode mode_duration i) platform plan option) in
  sp_totalCost
    (evaluate (withDuration achieved (withMode mode_cost i)) platform plan option).

(** *** Sizes *)

(** The number of (platform, plan, option) triples of a catalog. *)
Definition tripleCount (catalog : list Platform) : nat :=
  list_sum
    (map (fun pl => list_sum (map (fun p => List.length (options p)) (plans pl)))
       catalog).

(** *** Example requests and catalogs *)

(** The initial request with a budget of 100 USD: some triples are over
    budget. *)
Definition tightInputs : RecommendationInputs := withBudget (int 100) defaultInputs.

Definition tightRanking : list ScoredPlatform :=
  calculate DETAILED_PLATFORM_DATA tightInputs.

(** An unlimited flat-fee plan at 48 USD a month, and a duration-mode
    request with a budget of 48 USD. *)
Definition flatFee48 : Plan :=
  Catalog.plan "Flat" (int 48) (int 0) qu_unlimited (int 2) None (dec 15 10)
    [Catalog.soraPlus10].

Definition flatFeePlatform : Platform :=
  mkPlatform "Flat fee" api_No None (dec 5 10) beginner [flatFee48].

Definition budget48 : RecommendationInputs :=
  withBudget (int 48) (withMode mode_duration defaultInputs).

(** Two plans that differ in their quota only: 660 credits, and 0 credits
    without the unlimited marker. *)
Definition meteredPlan : Plan :=
  Catalog.plan "Standard" (int 10) (int 660) qu_credits (int 8) None (dec 15 10)
    [Catalog.klingStandard5s].

Definition zeroQuotaPlan : Plan :=
  Catalog.plan "Standard" (int 10) (int 0) qu_credits (int 8) None (dec 15 10)
    [Catalog.klingStandard5s].

Definition twoPlanPlatform : Platform :=
  mkPlatform "Kling AI" api_Limited (Some "N/A"%string) (dec 5 10) beginner
    [meteredPlan; zeroQuotaPlan].

(** The initial request with a budget of 5 USD, and with a budget of 10 USD. *)
Definition budget5 : RecommendationInputs := withBudget (int 5) defaultInputs.
Definition budget10 : RecommendationInputs := withBudget (int 10) defaultInputs.

(** LTX Studio's Lite (Monthly) plan and its only option, as in the built-in
    catalog. *)
Definition ltxLite : Option :=
  Catalog.opt "ltx-lite-m" "Motion Standard" (int 15) r1080pPlus true cu_ratio (int 1) None.

Definition ltxLiteMonthly : Plan :=
  Catalog.plan "Lite (Monthly)" (int 15) (int 8640) qu_compute_seconds (int 1) None (int 4)
    [ltxLite].

(** Google Veo's Ultra Subscription and its Veo 3 Quality option, as in the
    built-in catalog. *)
Definition veoUltraQuality : Option :=
  Catalog.opt "veo-ultra-qual" "Veo 3 Quality" (int 8) r1080p true cu_credits (int 100)
    (Some [AudioVideoSync]).

Definition veoUltra : Plan :=
  Catalog.plan "Ultra Subscription" (int 250) (int 12500) qu_credits (int 5) None (dec 8 10)
    [ Catalog.opt "veo-ultra-fast" "Veo 3 Fast" (int 8) r1080p true cu_credits (int 20)
        (Some [AudioVideoSync]);
      veoUltraQuality ].

(** The deadline typed as [1.76] into the form. *)
Definition days176 : float := B64.ofNum (dec 176 100).

(** Cost mode, 234 minutes of video in 1.76 days, otherwise the initial
    request. *)
Definition request176 : B64.RecommendationInputs :=
  B64.withDeadline days176 (B64.withDuration 234 B64.defaultInputs).


Definition durationFor250 : B64.RecommendationInputs :=
  B64.withBudget 250 (B64.withMode mode_duration B64.defaultInputs).

(* ================================================================= *)
(** ** Facts about the number model *)

Module JSFacts.

Lemma lt_fin (a b : Q) : JS.lt (Fin a) (Fin b) = true <-> (a < b)%Q.
Proof.
  simpl. destruct (Qcompare_spec a b) as [H|H|H]; split; intro K;
    try reflexivity; try discriminate; try assumption.
  - rewrite H in K. exfalso. apply (Qlt_irrefl b K).
  - exfalso. apply (Qlt_irrefl a). apply (Qlt_trans _ _ _ K H).
Qed.

Lemma le_fin (a b : Q) : JS.le (Fin a) (Fin b) = true <-> (a <= b)%Q.
Proof.
  simpl. destruct (Qcompare_spec a b) as [H|H|H]; split; intro K;
    try reflexivity; try discriminate.
  - rewrite H. apply Qle_refl.
  - apply Qlt_le_weak. assumption.
  - exfalso. apply (Qlt_irrefl a). apply (Qle_lt_trans _ _ _ K H).
Qed.

Lemma lt_fin_false (a b : Q) : JS.lt (Fin a) (Fin b) = false <-> (b <= a)%Q.
Proof.
  split; intro H.
  - apply Qnot_lt_le. intro K. apply lt_fin in K. congruence.
  - destruct (JS.lt (Fin a) (Fin b)) eqn:E; [|reflexivity].
    apply lt_fin in E. exfalso. apply (Qlt_irrefl a).
    apply (Qlt_le_trans _ _ _ E H).
Qed.

Lemma le_fin_false (a b : Q) : JS.le (Fin a) (Fin b) = false <-> (b < a)%Q.
Proof.
  split; intro H.
  - apply Qnot_le_lt. intro K. apply le_fin in K. congruence.
  - destruct (JS.le (Fin a) (Fin b)) eqn:E; [|reflexivity].
    apply le_fin in E. exfalso. apply (Qlt_irrefl a).
    apply (Qle_lt_trans _ _ _ E H).
Qed.

Lemma gt_fin (a b : Q) : JS.gt (Fin a) (Fin b) = true <-> (b < a)%Q.
Proof. unfold JS.gt. apply lt_fin. Qed.

Lemma gt_fin_false (a b : Q) : JS.gt (Fin a) (Fin b) = false <-> (a <= b)%Q.
Proof. unfold JS.gt. apply lt_fin_false. Qed.

Lemma ge_fin (a b : Q) : JS.ge (Fin a) (Fin b) = true <-> (b <= a)%Q.
Proof. unfold JS.ge. apply le_fin. Qed.

(** [a < b] and [a >= b] exclude each other, whatever the operands. *)
Lemma lt_not_ge (x y : num) : JS.lt x y = true -> JS.ge x y = false.
Proof.
  destruct x as [a| | |], y as [b| | |]; simpl; try discriminate; try reflexivity.
  destruct (Qcompare_spec a b) as [H|H|H]; try discriminate.
  intros _. destruct (Qcompare_spec b a) as [K|K|K]; try reflexivity.
  - rewrite K in H. exfalso. apply (Qlt_irrefl a H).
  - exfalso. apply (Qlt_irrefl a). apply (Qlt_trans _ _ _ H K).
Qed.

Lemma gt_not_le (x y : num) : JS.gt x y = true -> JS.le x y = false.
Proof. unfold JS.gt. intro H. apply (lt_not_ge y x H). Qed.

(** On values that are not [NaN] the order is total. *)
Lemma gt_false_le (x y : num) :
  JS.isNaN x = false -> JS.isNaN y = false -> JS.gt x y = false -> JS.le x y = true.
Proof.
  destruct x as [a| | |], y as [b| | |]; simpl; try discriminate; try reflexivity.
  intros _ _ H. apply le_fin. apply (proj1 (gt_fin_false a b)). exact H.
Qed.

Lemma le_trans (x y z : num) :
  JS.le x y = true -> JS.le y z = true -> JS.le x z = true.
Proof.
  destruct x as [a| | |], y as [b| | |], z as [c| | |];
    try discriminate; try reflexivity.
  intros H K. apply le_fin. apply le_fin in H, K. apply (Qle_trans _ _ _ H K).
Qed.

Lemma div_fin (a b : Q) : ~ (b == 0)%Q -> JS.div (Fin a) (Fin b) = Fin (a / b).
Proof.
  intro H. simpl. destruct (Qeq_bool b 0) eqn:E; [|reflexivity].
  apply Qeq_bool_iff in E. contradiction.
Qed.

Lemma div_fin_pos (a b : Q) : (0 < b)%Q -> JS.div (Fin a) (Fin b) = Fin (a / b).
Proof.
  intro H. apply div_fin. intro K. rewrite K in H. apply (Qlt_irrefl 0 H).
Qed.

Lemma truthy_fin (a : Q) : JS.truthy (Fin a) = true -> ~ (a == 0)%Q.
Proof.
  simpl. intros H K. apply Qeq_bool_iff in K. rewrite K in H. discriminate.
Qed.

Lemma min_PInf_l (x : num) : JS.min PInf x = x.
Proof. destruct x; reflexivity. Qed.

Lemma min_fin (a b : Q) :
  JS.min (Fin a) (Fin b) = if JS.lt (Fin a) (Fin b) then Fin a else Fin b.
Proof. reflexivity. Qed.

Lemma max_fin (a b : Q) :
  JS.max (Fin a) (Fin b) = if JS.lt (Fin a) (Fin b) then Fin b else Fin a.
Proof. reflexivity. Qed.

Lemma same_refl (x : num) : JS.same x x.
Proof. destruct x; simpl; auto. apply Qeq_refl. Qed.

Lemma same_sym (x y : num) : JS.same x y -> JS.same y x.
Proof. destruct x, y; simpl; auto. apply Qeq_sym. Qed.

Lemma same_trans (x y z : num) : JS.same x y -> JS.same y z -> JS.same x z.
Proof.
  destruct x, y, z; simpl; auto; try contradiction. apply Qeq_trans.
Qed.

(** The ceiling of a ratio is a number of parts that brings each part down
    to the divisor: the arithmetic behind the number of accounts. *)
Lemma ceil_share (s d : Q) :
  (0 < d)%Q -> (d < s)%Q ->
  (0 < inject_Z (Qceiling (s / d)))%Q /\
  (s / inject_Z (Qceiling (s / d)) <= d)%Q.
Proof.
  intros Hd Hs.
  assert (Hc : (s / d <= inject_Z (Qceiling (s / d)))%Q) by apply Qle_ceiling.
  assert (H1 : (1 < s / d)%Q).
  { apply Qlt_shift_div_l; [exact Hd|]. rewrite Qmult_1_l. exact Hs. }
  assert (Hk : (0 < inject_Z (Qceiling (s / d)))%Q).
  { apply (Qlt_le_trans _ (s / d)); [|exact Hc].
    apply (Qlt_trans _ 1); [reflexivity | exact H1]. }
  split; [exact Hk|].
  apply Qle_shift_div_r; [exact Hk|].
  assert (Hm : (s / d * d <= inject_Z (Qceiling (s / d)) * d)%Q).
  { apply Qmult_le_compat_r; [exact Hc | apply Qlt_le_weak; exact Hd]. }
  assert (He : (s / d * d == s)%Q).
  { field. intro K. rewrite K in Hd. apply (Qlt_irrefl 0 Hd). }
  rewrite He in Hm. rewrite Qmult_comm. exact Hm.
Qed.

End JSFacts.

(* ================================================================= *)
(** ** The quality scorer *)

Section QualityScore.

Lemma within_lit (lo hi q : Q) : (lo <= q)%Q -> (q <= hi)%Q -> within lo hi (Fin q).
Proof. intros H K. exists q. auto. Qed.

Lemma orElse_within (lo hi : Q) (v d : num) :
  within lo hi v -> within lo hi d -> within lo hi (JS.orElse v d).
Proof. intros Hv Hd. unfold JS.orElse. destruct (JS.truthy v); assumption. Qed.

Lemma lookupOr_within (lo hi : Q) (table : list (string * num)) (d : num) :
  Forall (fun kv => within lo hi (snd kv)) table ->
  within lo hi d ->
  forall key, within lo hi (lookupOr table key d).
Proof.
  intros Ht Hd key. unfold lookupOr.
  induction Ht as [|[k v] rest Hv _ IH]; simpl.
  - exact Hd.
  - destruct (String.eqb k key).
    + apply orElse_within; assumption.
    + exact IH.
Qed.

Lemma planHierarchy_within (key : string) :
  within 0 2 (lookupOr planHierarchy key (int 0)).
Proof.
  apply lookupOr_within.
  - unfold planHierarchy.
    repeat (apply Forall_cons; [apply within_lit; discriminate|]).
    apply Forall_nil.
  - apply within_lit; discriminate.
Qed.

Lemma platformReputation_within (key : string) :
  within (-5 # 10) (15 # 10) (lookupOr platformReputation key (int 0)).
Proof.
  apply lookupOr_within.
  - unfold platformReputation.
    repeat (apply Forall_cons; [apply within_lit; discriminate|]).
    apply Forall_nil.
  - apply within_lit; discriminate.
Qed.

Lemma resolution_within (r : Resolution) :
  within 7 10 (JS.orElse (resolutionScores r) (int 6)).
Proof. destruct r; apply within_lit; discriminate. Qed.

Lemma add_within (lo1 hi1 lo2 hi2 : Q) (x y : num) :
  within lo1 hi1 x -> within lo2 hi2 y -> within (lo1 + lo2) (hi1 + hi2) (x + y).
Proof.
  intros (a & -> & Ha1 & Ha2) (b & -> & Hb1 & Hb2). exists (a + b)%Q.
  split; [reflexivity|]. split; apply Qplus_le_compat; assumption.
Qed.

Lemma bonus_within (hi1 : Q) (lo b : Q) (c : bool) (x : num) :
  (0 <= b)%Q -> within lo hi1 x ->
  within lo (hi1 + b) (if c then x + Fin b else x).
Proof.
  intros Hb (a & -> & Ha1 & Ha2). destruct c.
  - exists (a + b)%Q. split; [reflexivity|]. split; lra.
  - exists a. split; [reflexivity|]. split; lra.
Qed.

(** Before clamping, the score is a finite sum between 6.5 and 17.5. *)
Lemma getQualityScore_shape (o : Option) (p : Plan) (pl : Platform) :
  exists s, (65 # 10 <= s)%Q /\
    getQualityScore o p pl = JS.min (int 10) (Fin s).
Proof.
  unfold getQualityScore.
  pose proof (resolution_within (resolution o)) as H0.
  pose proof (add_within _ _ _ _ _ _ (within_lit 0 0 0 (Qle_refl 0) (Qle_refl 0)) H0) as H1.
  pose proof (bonus_within _ _ (5 # 10) (audio o) _ ltac:(discriminate) H1) as H2.
  pose proof (add_within _ _ _ _ _ _ H2 (planHierarchy_within (planName p))) as H3.
  pose proof (bonus_within _ _ 1 (hasFeature o StoryboardExport) _
                ltac:(discriminate) H3) as H4.
  pose proof (bonus_within _ _ (5 # 10) (hasFeature o KeyframeEditor) _
                ltac:(discriminate) H4) as H5.
  pose proof (bonus_within _ _ 1 (hasFeature o AudioVideoSync) _
                ltac:(discriminate) H5) as H6.
  pose proof (add_within _ _ _ _ _ _ H6
                (platformReputation_within (platformName pl))) as H7.
  destruct H7 as (s & Hs & Hlo & _).
  exists s. split.
  - eapply Qle_trans; [|exact Hlo]. discriminate.
  - unfold int, JS.ofZ, dec in *. simpl inject_Z in *.
    change (Fin (1 # 1)) with (Fin 1) in *.
    rewrite <- Hs. reflexivity.
Qed.

Lemma getQualityScore_finite (o : Option) (p : Plan) (pl : Platform) :
  exists q, getQualityScore o p pl = Fin q /\ (65 # 10 <= q)%Q /\ (q <= 10)%Q.
Proof.
  destruct (getQualityScore_shape o p pl) as (s & Hlo & ->).
  unfold int, JS.ofZ. rewrite JSFacts.min_fin.
  destruct (JS.lt (Fin (inject_Z 10)) (Fin s)) eqn:E.
  - exists (inject_Z 10). split; [reflexivity|]. split; discriminate.
  - exists s. split; [reflexivity|]. split; [exact Hlo|].
    apply JSFacts.lt_fin_false in E. exact E.
Qed.

End QualityScore.

(** C9, as stated, does not hold: the score is bounded by 10, but no input
    gives a negative score, so the conjunction "at most 10 for every input,
    and negative for some input" fails. *)
Lemma quality_score_negative_refuted :
  ~ ((forall o p pl, JS.le (getQualityScore o p pl) (int 10) = true) /\
     (exists o p pl, JS.lt (getQualityScore o p pl) (int 0) = true)).
Proof.
  intros [_ (o & p & pl & H)].
  destruct (getQualityScore_finite o p pl) as (q & Hq & Hlo & _).
  rewrite Hq in H. apply JSFacts.lt_fin in H.
  apply (Qlt_irrefl 0). apply (Qle_lt_trans _ q); [|exact H].
  eapply Qle_trans; [|exact Hlo]. discriminate.
Qed.

(** C9, amended: for every option, plan and platform the quality score is at
    most 10 (the only clamp is the ceiling [Math.min(10, score)]), and it is
    at least 6.5, the smallest sum the tables allow; 6.5 is reached by a 720p
    option without audio or features on a plan without tier bonus of the
    platform with reputation -0.5. *)
Theorem quality_score_bounds :
  (forall o p pl,
     JS.le (getQualityScore o p pl) (int 10) = true /\
     JS.le (dec 65 10) (getQualityScore o p pl) = true) /\
  (exists o p pl, JS.same (getQualityScore o p pl) (dec 65 10)).
Proof.
  split.
  - intros o p pl.
    destruct (getQualityScore_finite o p pl) as (q & -> & Hlo & Hhi).
    split; apply JSFacts.le_fin; assumption.
  - exists (Catalog.opt "x" "x" (int 5) r720p false cu_credits (int 10) None),
           (Catalog.plan "Standard" (int 10) (int 660) qu_credits (int 8) None
              (dec 15 10) []),
           Catalog.klingAI.
    vm_compute. reflexivity.
Qed.

(* ================================================================= *)
(** ** The ranker *)

Section Ranker.

Lemma insertBy_perm {A : Type} (cmp : A -> A -> num) (x : A) (l : list A) :
  Permutation (insertBy cmp x l) (x :: l).
Proof.
  induction l as [|y rest IH]; cbn [insertBy].
  - apply Permutation_refl.
  - destruct (JS.gt (cmp x y) (int 0)).
    + apply (Permutation_trans (l' := y :: x :: rest)).
      * apply perm_skip. exact IH.
      * apply perm_swap.
    + apply Permutation_refl.
Qed.

Lemma arraySort_perm {A : Type} (cmp : A -> A -> num) (l : list A) :
  Permutation (arraySort cmp l) l.
Proof.
  induction l as [|x rest IH]; unfold arraySort; cbn [fold_right].
  - apply perm_nil.
  - apply (Permutation_trans (insertBy_perm cmp x _)).
    apply perm_skip. exact IH.
Qed.

Lemma calculate_perm (catalog : list Platform) (inputs : RecommendationInputs) :
  Permutation (calculate catalog inputs) (scoredOptions catalog inputs).
Proof. apply arraySort_perm. Qed.

(** Every ranked entry is the evaluation of a triple of the catalog. *)
Lemma calculate_In (catalog : list Platform) (inputs : RecommendationInputs)
    (sp : ScoredPlatform) :
  In sp (calculate catalog inputs) ->
  exists platform plan option,
    In platform catalog /\ In plan (plans platform) /\ In option (options plan) /\
    sp = evaluate inputs platform plan option.
Proof.
  intro H. apply (Permutation_in _ (calculate_perm catalog inputs)) in H.
  unfold scoredOptions in H.
  apply in_flat_map in H. destruct H as (platform & Hpl & H).
  apply in_flat_map in H. destruct H as (plan & Hp & H).
  apply in_map_iff in H. destruct H as (option & Ho & Hin).
  exists platform, plan, option. auto.
Qed.

Lemma rankedBefore_trans (a b c : ScoredPlatform) :
  rankedBefore a b -> rankedBefore b c -> rankedBefore a c.
Proof.
  intros [H1 H2] [K1 K2]. split.
  - intro Ha. apply K1. apply H1. exact Ha.
  - intro Hac.
    destruct (sp_feasible a) eqn:Ea, (sp_feasible b) eqn:Eb,
             (sp_feasible c) eqn:Ec; try discriminate.
    + unfold JS.ge in *. apply (JSFacts.le_trans _ (sp_score b)); auto.
    + specialize (K1 eq_refl). discriminate.
    + specialize (H1 eq_refl). discriminate.
    + unfold JS.ge in *. apply (JSFacts.le_trans _ (sp_score b)); auto.
Qed.

(** A positive comparator result puts the second argument first. *)
Lemma compareFn_gt (x y : ScoredPlatform) :
  JS.gt (compareFn x y) (int 0) = true -> rankedBefore y x.
Proof.
  unfold compareFn, rankedBefore.
  destruct (sp_feasible x) eqn:Ex, (sp_feasible y) eqn:Ey; simpl Bool.eqb; simpl negb;
    cbv iota; intro H.
  - split; [discriminate|]. intros _.
    destruct (sp_score x) as [a| | |], (sp_score y) as [b| | |];
      simpl in H; try discriminate; try reflexivity.
    unfold JS.ge. apply JSFacts.le_fin.
    change (JS.gt (Fin (b + - a)) (Fin (inject_Z 0)) = true) in H.
    apply JSFacts.gt_fin in H. unfold inject_Z in H. lra.
  - vm_compute in H. discriminate.
  - split; [discriminate|]. discriminate.
  - split; [reflexivity|]. intros _.
    destruct (sp_score x) as [a| | |], (sp_score y) as [b| | |];
      simpl in H; try discriminate; try reflexivity.
    unfold JS.ge. apply JSFacts.le_fin.
    change (JS.gt (Fin (b + - a)) (Fin (inject_Z 0)) = true) in H.
    apply JSFacts.gt_fin in H. unfold inject_Z in H. lra.
Qed.

(** Otherwise the first argument stays first; between entries of the same
    feasibility this needs scores that can be compared. *)
Lemma compareFn_not_gt (x y : ScoredPlatform) :
  JS.isNaN (sp_score x) = false -> JS.isNaN (sp_score y) = false ->
  JS.gt (compareFn x y) (int 0) = false -> rankedBefore x y.
Proof.
  unfold compareFn, rankedBefore. intros Nx Ny.
  destruct (sp_feasible x) eqn:Ex, (sp_feasible y) eqn:Ey; simpl Bool.eqb; simpl negb;
    cbv iota; intro H.
  - split; [discriminate|]. intros _.
    destruct (sp_score x) as [a| | |], (sp_score y) as [b| | |];
      simpl in H; try discriminate; try reflexivity.
    unfold JS.ge. apply JSFacts.le_fin.
    change (JS.gt (Fin (b + - a)) (Fin (inject_Z 0)) = false) in H.
    apply JSFacts.gt_fin_false in H. unfold inject_Z in H. lra.
  - split; [discriminate|]. discriminate.
  - vm_compute in H. discriminate.
  - split; [reflexivity|]. intros _.
    destruct (sp_score x) as [a| | |], (sp_score y) as [b| | |];
      simpl in H; try discriminate; try reflexivity.
    unfold JS.ge. apply JSFacts.le_fin.
    change (JS.gt (Fin (b + - a)) (Fin (inject_Z 0)) = false) in H.
    apply JSFacts.gt_fin_false in H. unfold inject_Z in H. lra.
Qed.

(** The feasibility key alone never depends on the scores. *)
Lemma compareFn_feasible_first (x y : ScoredPlatform) :
  if JS.gt (compareFn x y) (int 0) then feasibleFirst y x else feasibleFirst x y.
Proof.
  unfold feasibleFirst.
  unfold compareFn.
  destruct (sp_feasible x) eqn:Ex, (sp_feasible y) eqn:Ey; simpl Bool.eqb; simpl negb;
    cbv iota.
  - destruct (JS.gt _ _); auto.
  - vm_compute. discriminate.
  - vm_compute. discriminate.
  - destruct (JS.gt _ _); auto.
Qed.

(** Insertion keeps a list ordered by any transitive relation that the
    comparator decides on the elements at hand. *)
Lemma insertBy_StronglySorted {A : Type} (cmp : A -> A -> num)
    (R : A -> A -> Prop) (P : A -> Prop) :
  (forall a b c, R a b -> R b c -> R a c) ->
  (forall x y, P x -> P y -> JS.gt (cmp x y) (int 0) = true -> R y x) ->
  (forall x y, P x -> P y -> JS.gt (cmp x y) (int 0) = false -> R x y) ->
  forall x l, P x -> Forall P l ->
    StronglySorted R l -> StronglySorted R (insertBy cmp x l).
Proof.
  intros Htrans Hgt Hle x l Px Pl Hs.
  induction Hs as [|y rest Hrest IH Hy]; cbn [insertBy].
  - apply SSorted_cons; [apply SSorted_nil | apply Forall_nil].
  - inversion Pl as [|? ? Py Prest]; subst.
    destruct (JS.gt (cmp x y) (int 0)) eqn:E.
    + apply SSorted_cons; [apply IH; exact Prest|].
      apply (Permutation_Forall (Permutation_sym (insertBy_perm cmp x rest))).
      apply Forall_cons; [apply Hgt; assumption | exact Hy].
    + apply SSorted_cons; [apply SSorted_cons; assumption|].
      assert (Rxy : R x y) by (apply Hle; assumption).
      apply Forall_cons; [exact Rxy|].
      apply (Forall_impl (P := R y)); [|exact Hy].
      intros z Hz. apply (Htrans _ _ _ Rxy Hz).
Qed.

Lemma arraySort_StronglySorted {A : Type} (cmp : A -> A -> num)
    (R : A -> A -> Prop) (P : A -> Prop) :
  (forall a b c, R a b -> R b c -> R a c) ->
  (forall x y, P x -> P y -> JS.gt (cmp x y) (int 0) = true -> R y x) ->
  (forall x y, P x -> P y -> JS.gt (cmp x y) (int 0) = false -> R x y) ->
  forall l, Forall P l -> StronglySorted R (arraySort cmp l).
Proof.
  intros Htrans Hgt Hle l Pl.
  induction Pl as [|x rest Px Prest IH]; unfold arraySort; cbn [fold_right].
  - apply SSorted_nil.
  - apply (insertBy_StronglySorted cmp R P Htrans Hgt Hle); [exact Px| |exact IH].
    apply (Permutation_Forall (Permutation_sym (arraySort_perm cmp rest))).
    exact Prest.
Qed.

(** In a list ordered by [R], any earlier element is related to any later one. *)
Lemma StronglySorted_pair {A : Type} (R : A -> A -> Prop) (l1 l2 l3 : list A) (a b : A) :
  StronglySorted R (l1 ++ a :: l2 ++ b :: l3) -> R a b.
Proof.
  induction l1 as [|x l1 IH]; simpl; intro H.
  - apply StronglySorted_inv in H. destruct H as [_ H].
    rewrite Forall_forall in H. apply H.
    apply in_or_app. right. left. reflexivity.
  - apply StronglySorted_inv in H. destruct H as [H _]. apply IH. exact H.
Qed.

(** Whatever the scores, the ranked list is ordered by feasibility. *)
Lemma calculate_feasibleFirst (catalog : list Platform) (inputs : RecommendationInputs) :
  StronglySorted feasibleFirst (calculate catalog inputs).
Proof.
  unfold calculate.
  apply (arraySort_StronglySorted compareFn feasibleFirst (fun _ => True)).
  - unfold feasibleFirst. auto.
  - intros x y _ _ H. pose proof (compareFn_feasible_first x y) as K.
    rewrite H in K. exact K.
  - intros x y _ _ H. pose proof (compareFn_feasible_first x y) as K.
    rewrite H in K. exact K.
  - apply Forall_forall. auto.
Qed.

(** With comparable scores it is ordered by feasibility, then by score. *)
Lemma calculate_rankedBefore (catalog : list Platform) (inputs : RecommendationInputs) :
  Forall comparable (scoredOptions catalog inputs) ->
  StronglySorted rankedBefore (calculate catalog inputs).
Proof.
  intro H. unfold calculate.
  apply (arraySort_StronglySorted compareFn rankedBefore comparable).
  - apply rankedBefore_trans.
  - intros x y _ _. apply compareFn_gt.
  - intros x y. apply compareFn_not_gt.
  - exact H.
Qed.

End Ranker.

(* ================================================================= *)
(** ** Well-formed data gives finite intermediate values *)

Section WellFormed.

Lemma isFin_inv (x : num) : JS.isFin x = true -> exists q, x = Fin q.
Proof. destruct x as [q| | |]; try discriminate. intros _. exists q. reflexivity. Qed.

Lemma finPos_inv (x : num) : finPos x = true -> exists q, x = Fin q /\ (0 < q)%Q.
Proof.
  unfold finPos. destruct x as [q| | |]; try discriminate.
  intro H. apply andb_prop in H. destruct H as [_ H].
  exists q. split; [reflexivity|]. apply JSFacts.lt_fin in H. exact H.
Qed.

Lemma finNonneg_inv (x : num) : finNonneg x = true -> exists q, x = Fin q /\ (0 <= q)%Q.
Proof.
  unfold finNonneg. destruct x as [q| | |]; try discriminate.
  intro H. apply andb_prop in H. destruct H as [_ H].
  exists q. split; [reflexivity|]. apply JSFacts.le_fin in H. exact H.
Qed.

Lemma getAverage_wf (c : Cost) :
  wfCost c = true -> exists q, getAverage c = Fin q /\ (0 <= q)%Q.
Proof.
  destruct c as [v|lo hi]; simpl.
  - apply finNonneg_inv.
  - intro H. apply andb_prop in H. destruct H as [Hlo Hhi].
    apply finNonneg_inv in Hlo, Hhi.
    destruct Hlo as (a & -> & Ha), Hhi as (b & -> & Hb).
    exists ((a + b) / inject_Z 2)%Q. split.
    + unfold int, JS.ofZ. cbn [JS.add]. apply JSFacts.div_fin_pos. reflexivity.
    + apply Qle_shift_div_l; [reflexivity|]. lra.
Qed.

Lemma wfPlanFields_inv (p : Plan) : wfPlanFields p = true -> PlanFacts p.
Proof.
  unfold wfPlanFields. intro H.
  do 4 (apply andb_prop in H; destruct H as [H ?]).
  constructor.
  - apply finNonneg_inv; assumption.
  - apply finNonneg_inv; assumption.
  - apply finPos_inv; assumption.
  - intro gate. unfold pickParallel.
    destruct (maxParallelAPI p) as [a|].
    + destruct (gate && JS.truthy a); apply finPos_inv; assumption.
    + apply finPos_inv; assumption.
Qed.

Lemma wfOption_inv (o : Option) :
  wfOption o = true ->
  (exists m, maxDurationSec o = Fin m /\ (0 < m)%Q) /\
  (exists c, getAverage (cost o) = Fin c /\ (0 <= c)%Q).
Proof.
  unfold wfOption. intro H. apply andb_prop in H. destruct H as [H1 H2].
  split; [apply finPos_inv | apply getAverage_wf]; assumption.
Qed.

Lemma wfInputs_inv (i : RecommendationInputs) : wfInputs i = true -> InputFacts i.
Proof.
  unfold wfInputs. intro H.
  do 4 (apply andb_prop in H; destruct H as [H ?]).
  constructor; try (apply isFin_inv; assumption).
  apply finPos_inv; assumption.
Qed.

(** Membership in a well-formed catalog. *)
Lemma wfCatalog_In (catalog : list Platform) (platform : Platform) (plan : Plan)
    (option : Option) :
  wfCatalog catalog = true ->
  In platform catalog -> In plan (plans platform) -> In option (options plan) ->
  wfPlatformFields platform = true /\ wfPlanFields plan = true /\ wfOption option = true.
Proof.
  unfold wfCatalog. intros H Hpl Hp Ho.
  rewrite forallb_forall in H. specialize (H _ Hpl).
  unfold wfPlatform in H. apply andb_prop in H. destruct H as [H1 H].
  rewrite forallb_forall in H. specialize (H _ Hp).
  unfold wfPlan in H. apply andb_prop in H. destruct H as [H2 H].
  rewrite forallb_forall in H. specialize (H _ Ho). auto.
Qed.

End WellFormed.

(** Rewriting steps for arithmetic on finite values. *)
Ltac fin_div :=
  rewrite JSFacts.div_fin_pos by (first [assumption | reflexivity]).

Ltac fin_lits := unfold int, dec, JS.ofZ in *.

(** A positive rational is not zero. *)
Ltac pos_nonzero :=
  let K := fresh "K" in
  intro K;
  match goal with
  | H : (0 < ?x)%Q, K' : (?x == 0)%Q |- _ =>
      rewrite K' in H; exact (Qlt_irrefl 0 H)
  end.

Ltac fin_eval :=
  repeat first
    [ progress (cbn [JS.mul JS.add JS.sub JS.neg JS.ceil JS.floor])
    | progress (unfold JS.ofZ)
    | fin_div ].

(* ================================================================= *)
(** ** The time estimator *)

Section TimeEstimator.

Variables (option : Option) (plan : Plan) (platform : Platform) (expertise : Level).
Hypothesis Hplatform : wfPlatformFields platform = true.
Hypothesis Hplan : wfPlanFields plan = true.
Hypothesis Hoption : wfOption option = true.

Lemma clipsNeededFor_fin (d : Q) :
  exists k : Z, clipsNeededFor (Fin d) option = Fin (inject_Z k).
Proof.
  destruct (wfOption_inv _ Hoption) as [(m & Hm & Hmpos) _].
  unfold clipsNeededFor. rewrite Hm. fin_lits. cbn [JS.mul]. fin_div.
  cbn [JS.ceil]. eexists. reflexivity.
Qed.

Lemma singleAccountTimeDays_fin (d : Q) :
  exists s, singleAccountTimeDays (Fin d) option plan platform expertise = Fin s.
Proof.
  destruct (wfPlanFields_inv _ Hplan) as [_ _ (at_ & Hat & Hatpos) Hpar].
  destruct (Hpar (canUseAPI platform expertise)) as (e & He & Hepos).
  destruct (finNonneg_inv _ Hplatform) as (sd & Hsd & _).
  destruct (clipsNeededFor_fin d) as (k & Hk).
  unfold singleAccountTimeDays. rewrite Hk, Hat, He, Hsd. fin_lits.
  cbn [JS.mul]. fin_div. fin_div. fin_div. cbn [JS.add].
  eexists. reflexivity.
Qed.

End TimeEstimator.

Section AccountsNeeded.

(** In exact arithmetic the share of a single-account time [s] among the
    accounts the code asks for never exceeds a positive deadline, whatever
    [s] is. *)
Lemma share_never_exceeds (s : num) (d : Q) :
  (0 < d)%Q ->
  JS.gt (s / (if JS.gt s (Fin d) then JS.ceil (s / Fin d) else int 1)) (Fin d) = false.
Proof.
  intro Hd. destruct s as [a| | |].
  - destruct (JS.gt (Fin a) (Fin d)) eqn:E.
    + apply JSFacts.gt_fin in E.
      destruct (JSFacts.ceil_share a d Hd E) as [Hk Hshare].
      fin_div. cbn [JS.ceil]. unfold JS.ofZ. fin_div.
      apply JSFacts.gt_fin_false. exact Hshare.
    + apply JSFacts.gt_fin_false in E. fin_lits. fin_div.
      apply JSFacts.gt_fin_false.
      assert (H1 : (a / inject_Z 1 == a)%Q) by (unfold inject_Z; field).
      rewrite H1. exact E.
  - assert (E : JS.gt PInf (Fin d) = true) by reflexivity. rewrite E.
    assert (K : JS.div PInf (Fin d) = PInf).
    { simpl. apply Qgt_alt in Hd. rewrite Hd. reflexivity. }
    rewrite K. reflexivity.
  - reflexivity.
  - reflexivity.
Qed.

Lemma timeDays_never_exceeds (dur : num) (o : Option) (p : Plan) (pl : Platform)
    (dl : num) (e : Level) :
  finPos dl = true ->
  JS.gt (timeDays (calculateTimeRequirement dur o p pl dl e)) dl = false.
Proof.
  intro H. destruct (finPos_inv _ H) as (d & -> & Hd).
  unfold calculateTimeRequirement.
  destruct (JS.le dur (int 0)); cbn [timeDays].
  - apply JSFacts.gt_fin_false. unfold inject_Z. apply Qlt_le_weak. exact Hd.
  - apply share_never_exceeds. exact Hd.
Qed.

(** On well-formed data the estimate is finite, at most the deadline, and
    the number of accounts is a whole number, at least one. *)
Lemma calculateTimeRequirement_wf (dur d : Q) (o : Option) (p : Plan)
    (pl : Platform) (e : Level) :
  wfPlatformFields pl = true -> wfPlanFields p = true -> wfOption o = true ->
  (0 < d)%Q ->
  exists (t : Q) (k : Z),
    calculateTimeRequirement (Fin dur) o p pl (Fin d) e
      = mkTime (Fin t) (Fin (inject_Z k)) /\
    (t <= d)%Q /\ (1 <= k)%Z.
Proof.
  intros Hpl Hp Ho Hd. unfold calculateTimeRequirement.
  destruct (JS.le (Fin dur) (int 0)).
  - exists (inject_Z 0), 1%Z. split; [reflexivity|]. split; [|lia].
    unfold inject_Z. apply Qlt_le_weak. exact Hd.
  - destruct (singleAccountTimeDays_fin o p pl e Hpl Hp Ho dur) as (s & ->).
    destruct (JS.gt (Fin s) (Fin d)) eqn:E.
    + apply JSFacts.gt_fin in E.
      destruct (JSFacts.ceil_share s d Hd E) as [Hk Hshare].
      fin_div. cbn [JS.ceil]. unfold JS.ofZ. fin_div.
      exists (s / inject_Z (Qceiling (s / d)))%Q, (Qceiling (s / d)).
      split; [reflexivity|]. split; [exact Hshare|].
      change 0%Q with (inject_Z 0) in Hk. rewrite <- Zlt_Qlt in Hk. lia.
    + apply JSFacts.gt_fin_false in E. fin_lits. fin_div.
      exists (s / inject_Z 1)%Q, 1%Z. split; [reflexivity|]. split; [|lia].
      assert (H1 : (s / inject_Z 1 == s)%Q) by (unfold inject_Z; field).
      rewrite H1. exact E.
Qed.

End AccountsNeeded.

(* ================================================================= *)
(** ** Cost mode *)

Section CostMode.

Lemma totalUnitsNeeded_wf (dur : Q) (o : Option) :
  wfOption o = true -> exists u, totalUnitsNeeded (Fin dur) o = Fin u.
Proof.
  intro Ho. destruct (wfOption_inv _ Ho) as [_ (c & Hc & _)].
  unfold totalUnitsNeeded. rewrite Hc.
  destruct (CostUnit_eqb (costUnit o) cu_ratio).
  - fin_lits. cbn [JS.mul]. eexists. reflexivity.
  - destruct (clipsNeededFor_fin o Ho dur) as (k & ->).
    cbn [JS.mul]. eexists. reflexivity.
Qed.

(** On well-formed data the cost of a workload is finite or [Infinity]. *)
Lemma costModeTotalCost_wf (dur : Q) (o : Option) (p : Plan) :
  wfPlanFields p = true -> wfOption o = true ->
  JS.isNaN (costModeTotalCost (Fin dur) o p) = false.
Proof.
  intros Hp Ho.
  destruct (wfPlanFields_inv _ Hp) as [(mc & Hmc & _) (qt & Hqt & _) _ _].
  destruct (wfOption_inv _ Ho) as [_ (c & Hc & _)].
  unfold costModeTotalCost.
  destruct (QuotaUnit_eqb (quotaUnit p) qu_unlimited).
  - destruct (CostUnit_eqb (costUnit o) cu_per_second).
    + rewrite Hc. fin_lits. reflexivity.
    + rewrite Hmc. reflexivity.
  - rewrite Hqt. destruct (JS.gt (Fin qt) (int 0)) eqn:E; [|reflexivity].
    apply JSFacts.gt_fin in E. unfold inject_Z in E.
    unfold plansNeeded. destruct (totalUnitsNeeded_wf dur o Ho) as (u & ->).
    rewrite Hqt, Hmc. fin_div. reflexivity.
Qed.

(** In exact arithmetic, with a positive deadline the accounts reason is
    never pushed: the only reason cost mode can give is ['Over budget']. *)
Lemma costMode_reasons (inputs : RecommendationInputs) (pl : Platform) (p : Plan)
    (o : Option) :
  finPos (deadline inputs) = true ->
  reasons (costModeOutcome inputs pl p o) =
    if JS.gt (costModeTotalCost (duration inputs) o p) (budget inputs)
    then [overBudget] else [].
Proof.
  intro Hd. unfold costModeOutcome. cbn [reasons].
  rewrite (timeDays_never_exceeds _ _ _ _ _ _ Hd). reflexivity.
Qed.

(** In exact arithmetic, with a positive deadline duration mode gives no
    reason at all. *)
Lemma durationMode_reasons (inputs : RecommendationInputs) (pl : Platform) (p : Plan)
    (o : Option) :
  finPos (deadline inputs) = true ->
  reasons (durationModeOutcome inputs pl p o) = [].
Proof.
  intro Hd. unfold durationModeOutcome. cbn [reasons].
  rewrite (timeDays_never_exceeds _ _ _ _ _ _ Hd). reflexivity.
Qed.

Lemma feasibleOf_overBudget : feasibleOf [overBudget] = false.
Proof. reflexivity. Qed.

End CostMode.

(** In exact arithmetic, for a deadline [> 0]: (1) on well-formed data the
    [timeDays] returned by [calculateTimeRequirement] is at most the deadline,
    for every finite target duration; (2) the guard [timeDays > deadline] is
    false for every target duration and every option, plan and platform, so
    the accounts-needed reason is never appended: cost mode yields no reason
    or only ['Over budget'], duration mode yields none; (3) on well-formed
    data a cost-mode triple is feasible exactly when [totalCost <= budget].
    Parts (1) and (2) rest on [s / ceil(s / d) <= d], which the rounded
    divisions of the program do not keep for every deadline: see
    [deadline_exceeded_by_rounding] below. *)
Theorem exact_estimate_within_deadline :
  forall inputs platform plan option,
    finPos (deadline inputs) = true ->
    (wfPlatformFields platform = true -> wfPlanFields plan = true ->
     wfOption option = true ->
     forall dur, JS.isFin dur = true ->
       JS.le (timeDays (calculateTimeRequirement dur option plan platform
                          (deadline inputs) (expertise inputs)))
         (deadline inputs) = true) /\
    (forall dur,
       JS.gt (timeDays (calculateTimeRequirement dur option plan platform
                          (deadline inputs) (expertise inputs)))
         (deadline inputs) = false) /\
    (reasons (costModeOutcome inputs platform plan option) = [] \/
     reasons (costModeOutcome inputs platform plan option) = [overBudget]) /\
    reasons (durationModeOutcome inputs platform plan option) = [] /\
    (wfInputs inputs = true -> wfPlanFields plan = true ->
     wfOption option = true -> calcMode inputs = mode_cost ->
     (sp_feasible (evaluate inputs platform plan option) = true <->
      JS.le (sp_totalCost (evaluate inputs platform plan option))
        (budget inputs) = true)).
Proof.
  intros inputs platform plan option Hd.
  destruct (finPos_inv _ Hd) as (d & Hdl & Hdpos).
  split; [|split; [|split; [|split]]].
  - intros Hpl Hp Ho dur Hdur.
    destruct (isFin_inv _ Hdur) as (x & ->). rewrite Hdl.
    destruct (calculateTimeRequirement_wf x d option plan platform
                (expertise inputs) Hpl Hp Ho Hdpos) as (t & k & -> & Ht & _).
    cbn [timeDays]. apply JSFacts.le_fin. exact Ht.
  - intro dur. apply timeDays_never_exceeds. exact Hd.
  - rewrite (costMode_reasons _ _ _ _ Hd).
    destruct (JS.gt _ _); [right | left]; reflexivity.
  - apply durationMode_reasons. exact Hd.
  - intros Hi Hp Ho Hmode.
    destruct (wfInputs_inv _ Hi) as [_ (du & Hdu) (b & Hb) _ _].
    unfold evaluate. cbn [sp_feasible sp_totalCost].
    unfold modeOutcome. rewrite Hmode.
    rewrite (costMode_reasons _ _ _ _ Hd).
    unfold costModeOutcome. cbn [totalCost].
    pose proof (costModeTotalCost_wf du option plan Hp Ho) as Hn.
    rewrite Hdu, Hb in *.
    destruct (JS.gt (costModeTotalCost (Fin du) option plan) (Fin b)) eqn:E.
    + rewrite feasibleOf_overBudget. rewrite (JSFacts.gt_not_le _ _ E).
      split; discriminate.
    + rewrite (JSFacts.gt_false_le (costModeTotalCost (Fin du) option plan)
                 (Fin b) Hn eq_refl E).
      split; reflexivity.
Qed.

(** The same at the first triple of the built-in catalog (Kling AI,
    Standard, Standard 5s) and the initial request of the form. *)
Lemma exact_estimate_within_deadline_example :
  sp_feasible (evaluate defaultInputs Catalog.klingAI Catalog.klingStandard
                 Catalog.klingStandard5s) = true <->
  JS.le (sp_totalCost (evaluate defaultInputs Catalog.klingAI Catalog.klingStandard
                         Catalog.klingStandard5s))
    (budget defaultInputs) = true.
Proof.
  apply (exact_estimate_within_deadline defaultInputs Catalog.klingAI Catalog.klingStandard
           Catalog.klingStandard5s eq_refl); reflexivity.
Defined.

(* ================================================================= *)
(** ** The composite score is finite on well-formed data *)

Section FiniteScore.

Lemma isFin_add (x y : num) :
  JS.isFin x = true -> JS.isFin y = true -> JS.isFin (x + y) = true.
Proof. destruct x, y; try discriminate. reflexivity. Qed.

Lemma isFin_sub (x y : num) :
  JS.isFin x = true -> JS.isFin y = true -> JS.isFin (x - y) = true.
Proof. destruct x, y; try discriminate. reflexivity. Qed.

Lemma isFin_mul (x y : num) :
  JS.isFin x = true -> JS.isFin y = true -> JS.isFin (x * y) = true.
Proof. destruct x, y; try discriminate. reflexivity. Qed.

Lemma isFin_div_lit (x : num) (z : Z) :
  JS.isFin x = true -> (0 < z)%Z -> JS.isFin (x / int z) = true.
Proof.
  destruct x as [a| | |]; try discriminate. intros _ Hz.
  fin_lits. rewrite JSFacts.div_fin_pos; [reflexivity|].
  change 0%Q with (inject_Z 0). rewrite <- Zlt_Qlt. exact Hz.
Qed.

Lemma isFin_max (x y : num) :
  JS.isFin x = true -> JS.isFin y = true -> JS.isFin (JS.max x y) = true.
Proof.
  destruct x as [a| | |], y as [b| | |]; try discriminate. intros _ _.
  rewrite JSFacts.max_fin. destruct (JS.lt (Fin a) (Fin b)); reflexivity.
Qed.

Lemma isFin_int (z : Z) : JS.isFin (int z) = true.
Proof. reflexivity. Qed.

Lemma isFin_dec (z : Z) (p : positive) : JS.isFin (dec z p) = true.
Proof. reflexivity. Qed.

Lemma costScore_fin (cps : num) : JS.isFin (costScore cps) = true.
Proof.
  unfold costScore. destruct cps as [a| | |]; try reflexivity.
  destruct (JS.gt (Fin a) (int 0) && negb (JS.strictEq (Fin a) PInf));
    [|reflexivity].
  apply isFin_mul; [|reflexivity].
  apply isFin_max; [reflexivity|].
  apply isFin_sub; [reflexivity|].
  apply isFin_div_lit; [reflexivity | lia].
Qed.

Lemma expertiseMatch_fin (u t : Level) :
  JS.isFin (JS.orElse (expertiseMatch u t) (int 0)) = true.
Proof. destruct u, t; reflexivity. Qed.

Lemma audioTerm_fin (needs : AudioNeeds) (a : bool) : JS.isFin (audioTerm needs a) = true.
Proof. destruct needs, a; reflexivity. Qed.

Lemma durationBonus_fin (achievable : num) :
  JS.gt achievable (int 0) = true ->
  JS.isFin (JS.min (int 20) (achievable / int 2)) = true.
Proof.
  destruct achievable as [a| | |]; try discriminate; intros _.
  - fin_lits. fin_div. rewrite JSFacts.min_fin.
    destruct (JS.lt _ _); reflexivity.
  - reflexivity.
Qed.

Lemma scoringParallel_fin (pl : Platform) (p : Plan) (e : Level) :
  wfPlanFields p = true -> JS.isFin (scoringParallel pl p e) = true.
Proof.
  intro Hp. destruct (wfPlanFields_inv _ Hp) as [_ _ _ Hpar].
  unfold scoringParallel. destruct (Hpar (match apiAvailable pl with
    | api_Yes => true | _ => false end && match e with
    | beginner => false | _ => true end)) as (q & -> & _).
  reflexivity.
Qed.

Ltac fin_solve :=
  repeat first
    [ assumption
    | reflexivity
    | apply isFin_sub
    | apply isFin_add
    | apply isFin_mul
    | apply isFin_max
    | apply isFin_div_lit; [|lia]
    | apply costScore_fin
    | apply expertiseMatch_fin
    | apply audioTerm_fin
    | apply scoringParallel_fin
    | match goal with
      | |- JS.isFin (if ?c then _ else _) = true => destruct c
      | |- JS.isFin (match ?c with _ => _ end) = true => destruct c
      end ].

Lemma compositeScore_fin (inputs : RecommendationInputs) (pl : Platform) (p : Plan)
    (o : Option) (quality cps : num) (feasible : bool) (accounts achievable : num) :
  wfInputs inputs = true -> wfPlanFields p = true ->
  JS.isFin quality = true -> JS.isFin accounts = true ->
  JS.isFin (compositeScore inputs pl p o quality cps feasible accounts achievable) = true.
Proof.
  intros Hi Hp Hq Ha.
  destruct (wfInputs_inv _ Hi) as [_ _ _ (cq & Hcq) (sc & Hsc)].
  unfold compositeScore. rewrite Hcq, Hsc.
  destruct (calcMode inputs);
    [| destruct (JS.gt achievable (int 0)) eqn:E;
       [apply isFin_add; [|apply durationBonus_fin; exact E]|]];
    fin_solve.
Qed.

End FiniteScore.

(* ================================================================= *)
(** ** Duration mode *)

Section DurationMode.

Variables (option : Option) (plan : Plan) (platform : Platform).
Hypothesis Hplatform : wfPlatformFields platform = true.
Hypothesis Hplan : wfPlanFields plan = true.
Hypothesis Hoption : wfOption option = true.

(** What a finite budget buys is a finite number of seconds, or [Infinity]
    on a flat-fee plan. *)
Lemma durationModeBudget_seconds (b : Q) :
  (exists v, bu_totalVideoSeconds (durationModeBudget (Fin b) option plan) = Fin v) \/
  bu_totalVideoSeconds (durationModeBudget (Fin b) option plan) = PInf.
Proof.
  destruct (wfPlanFields_inv _ Hplan) as [(mc & Hmc & _) (qt & Hqt & _) _ _].
  destruct (wfOption_inv _ Hoption) as [(m & Hm & _) (c & Hc & _)].
  unfold durationModeBudget. rewrite Hmc, Hqt, Hm, Hc.
  destruct (QuotaUnit_eqb (quotaUnit plan) qu_unlimited).
  - destruct (CostUnit_eqb (costUnit option) cu_per_second).
    + destruct (JS.gt (Fin b) (int 0)); cbn [andb];
        [|left; eexists; reflexivity].
      destruct (JS.gt (Fin c) (int 0)) eqn:E; [|left; eexists; reflexivity].
      apply JSFacts.gt_fin in E. unfold inject_Z in E.
      cbn [bu_totalVideoSeconds]. fin_div. left. eexists. reflexivity.
    + destruct (JS.ge (Fin b) (Fin mc)); [right | left; eexists]; reflexivity.
  - destruct (JS.gt (Fin mc) (int 0)) eqn:E; [|left; eexists; reflexivity].
    apply JSFacts.gt_fin in E. unfold inject_Z in E. fin_div.
    cbn [JS.floor]. unfold JS.ofZ.
    destruct (JS.gt (Fin (inject_Z (Qfloor (b / mc)))) (int 0));
      [|left; eexists; reflexivity].
    cbn [bu_totalVideoSeconds].
    destruct (JS.gt (Fin c) (int 0)) eqn:Ec; [|left; eexists; reflexivity].
    apply JSFacts.gt_fin in Ec. unfold inject_Z in Ec.
    cbn [JS.mul]. fin_div.
    destruct (CostUnit_eqb (costUnit option) cu_ratio); left; eexists; reflexivity.
Qed.

Lemma maxDurationFromTime_fin (d : Q) (e : Level) :
  exists m, maxDurationFromTime (Fin d) option plan platform e = Fin m.
Proof.
  destruct (wfPlanFields_inv _ Hplan) as [_ _ (at_ & Hat & Hatpos) Hpar].
  destruct (Hpar (canUseAPI platform e)) as (par & Hpar' & _).
  destruct (wfOption_inv _ Hoption) as [(m & Hm & _) _].
  unfold maxDurationFromTime, maxClipsInDeadline.
  rewrite Hat, Hpar', Hm. fin_lits. cbn [JS.mul]. fin_div. cbn [JS.mul]. fin_div.
  eexists. reflexivity.
Qed.

Lemma durationMode_achievable_fin (inputs : RecommendationInputs) :
  wfInputs inputs = true ->
  exists a, achievableDuration (durationModeOutcome inputs platform plan option) = Fin a.
Proof.
  intro Hi. destruct (wfInputs_inv _ Hi) as [(d & Hd & _) _ (b & Hb) _ _].
  unfold durationModeOutcome. cbn [achievableDuration]. rewrite Hd, Hb.
  destruct (maxDurationFromTime_fin d (expertise inputs)) as (m & ->).
  destruct (durationModeBudget_seconds b) as [(v & ->) | ->].
  - fin_lits. fin_div. rewrite JSFacts.min_fin.
    destruct (JS.lt _ _); eexists; reflexivity.
  - exists m. reflexivity.
Qed.

Lemma modeOutcome_accounts_fin (inputs : RecommendationInputs) :
  wfInputs inputs = true ->
  JS.isFin (resultAccountsNeeded (modeOutcome inputs platform plan option)) = true.
Proof.
  intro Hi. destruct (wfInputs_inv _ Hi) as [(d & Hd & Hdpos) (du & Hdu) _ _ _].
  unfold modeOutcome. destruct (calcMode inputs).
  - unfold costModeOutcome. cbn [resultAccountsNeeded]. rewrite Hd, Hdu.
    destruct (calculateTimeRequirement_wf du d option plan platform
                (expertise inputs) Hplatform Hplan Hoption Hdpos)
      as (t & k & -> & _).
    reflexivity.
  - destruct (durationMode_achievable_fin inputs Hi) as (a & Ha).
    unfold durationModeOutcome in *. cbn [resultAccountsNeeded achievableDuration] in *.
    rewrite Ha, Hd.
    destruct (calculateTimeRequirement_wf a d option plan platform
                (expertise inputs) Hplatform Hplan Hoption Hdpos)
      as (t & k & -> & _).
    reflexivity.
Qed.

Lemma evaluate_score_fin (inputs : RecommendationInputs) :
  wfInputs inputs = true ->
  JS.isFin (sp_score (evaluate inputs platform plan option)) = true.
Proof.
  intro Hi. unfold evaluate. cbn [sp_score].
  apply compositeScore_fin; [exact Hi | exact Hplan | |].
  - destruct (getQualityScore_finite option plan platform) as (q & -> & _).
    reflexivity.
  - apply modeOutcome_accounts_fin. exact Hi.
Qed.

End DurationMode.

Lemma scoredOptions_comparable (catalog : list Platform) (inputs : RecommendationInputs) :
  wfCatalog catalog = true -> wfInputs inputs = true ->
  Forall comparable (scoredOptions catalog inputs).
Proof.
  intros Hc Hi. apply Forall_forall. intros sp H.
  unfold scoredOptions in H.
  apply in_flat_map in H. destruct H as (platform & Hpl & H).
  apply in_flat_map in H. destruct H as (plan & Hp & H).
  apply in_map_iff in H. destruct H as (option & <- & Ho).
  destruct (wfCatalog_In _ _ _ _ Hc Hpl Hp Ho) as (W1 & W2 & W3).
  unfold comparable.
  pose proof (evaluate_score_fin option plan platform W1 W2 W3 inputs Hi) as F.
  destruct (sp_score (evaluate inputs platform plan option)); try discriminate.
  reflexivity.
Qed.

(** C2: for every catalog and request, any two entries [a], [b] of the
    ranked list with [a] before [b] satisfy: [a] infeasible and [b] feasible
    never happens; and, on well-formed data (where every score is finite),
    when both have the same feasibility the score of [a] is at least the
    score of [b]. *)
Theorem ranking_order :
  forall catalog inputs l1 a l2 b l3,
    calculate catalog inputs = (l1 ++ a :: l2 ++ b :: l3)%list ->
    ~ (sp_feasible a = false /\ sp_feasible b = true) /\
    (wfCatalog catalog = true -> wfInputs inputs = true ->
     sp_feasible a = sp_feasible b -> JS.ge (sp_score a) (sp_score b) = true).
Proof.
  intros catalog inputs l1 a l2 b l3 Hsplit. split.
  - pose proof (calculate_feasibleFirst catalog inputs) as Hs.
    rewrite Hsplit in Hs. apply StronglySorted_pair in Hs.
    intros [Ha Hb]. rewrite (Hs Ha) in Hb. discriminate.
  - intros Hc Hi.
    pose proof (calculate_rankedBefore catalog inputs
                  (scoredOptions_comparable catalog inputs Hc Hi)) as Hs.
    rewrite Hsplit in Hs. apply StronglySorted_pair in Hs.
    destruct Hs as [_ H2]. exact H2.
Qed.

(** C2 on the built-in catalog with a budget of 100 USD, at the first two
    entries of the ranking. *)
Lemma ranking_order_witness :
  ~ (sp_feasible (nth 0 tightRanking (evaluate tightInputs Catalog.klingAI
                    Catalog.klingStandard Catalog.klingStandard5s)) = false /\
     sp_feasible (nth 1 tightRanking (evaluate tightInputs Catalog.klingAI
                    Catalog.klingStandard Catalog.klingStandard5s)) = true) /\
  JS.ge
    (sp_score (nth 0 tightRanking (evaluate tightInputs Catalog.klingAI
                 Catalog.klingStandard Catalog.klingStandard5s)))
    (sp_score (nth 1 tightRanking (evaluate tightInputs Catalog.klingAI
                 Catalog.klingStandard Catalog.klingStandard5s))) = true.
Proof.
  assert (Hsplit : calculate DETAILED_PLATFORM_DATA tightInputs =
            ([] ++ nth 0 tightRanking (evaluate tightInputs Catalog.klingAI
                     Catalog.klingStandard Catalog.klingStandard5s)
                :: [] ++ nth 1 tightRanking (evaluate tightInputs Catalog.klingAI
                     Catalog.klingStandard Catalog.klingStandard5s)
                :: skipn 2 tightRanking)%list)
    by (vm_compute; reflexivity).
  destruct (ranking_order DETAILED_PLATFORM_DATA tightInputs _ _ _ _ _ Hsplit)
    as [H1 H2].
  split; [exact H1 | apply (H2 eq_refl eq_refl)].
  vm_compute. reflexivity.
Defined.

(* ================================================================= *)
(** ** The feasibility policy *)

Section Feasibility.

Lemma feasibleOf_spec (rs : list string) :
  feasibleOf rs = true <->
  (rs = [] \/ exists r, rs = [r] /\ JS.includes "accounts" r = true).
Proof.
  destruct rs as [|r [|r' rest]]; unfold feasibleOf; cbn.
  - split; auto.
  - split.
    + intro H. right. exists r. auto.
    + intros [H | (r0 & H & K)]; [discriminate|]. injection H as ->. exact K.
  - split; [discriminate|].
    intros [H | (r0 & H & _)]; discriminate.
Qed.

Lemma includes_append (needle pre hay : string) :
  JS.includes needle hay = true -> JS.includes needle (pre ++ hay)%string = true.
Proof.
  intro H. induction pre as [|c pre IH].
  - exact H.
  - cbn [String.append JS.includes]. rewrite IH. apply orb_true_r.
Qed.

Lemma requiresAccounts_mentions (k : num) :
  JS.includes "accounts" (requiresAccounts k) = true.
Proof.
  unfold requiresAccounts. apply includes_append. apply includes_append.
  reflexivity.
Qed.

Lemma challengingDeadline_mentions (k : num) :
  JS.includes "accounts" (challengingDeadline k) = true.
Proof.
  unfold challengingDeadline. apply includes_append. apply includes_append.
  reflexivity.
Qed.

Lemma overBudget_infeasible (rs : list string) :
  In overBudget rs -> feasibleOf rs = false.
Proof.
  intro H. destruct (feasibleOf rs) eqn:E; [|reflexivity].
  apply feasibleOf_spec in E. destruct E as [-> | (r & -> & Hr)].
  - contradiction.
  - destruct H as [-> | []]. vm_compute in Hr. discriminate.
Qed.

End Feasibility.

(** C1: every entry of the ranked list is feasible if and only if its
    reasons list is empty or is exactly one reason that mentions accounts;
    an entry whose reasons include ['Over budget'] is infeasible whatever
    else the list holds, and an entry whose only reason is the
    accounts-needed reason (of cost mode or of duration mode) is feasible. *)
Theorem feasibility_policy :
  forall catalog inputs sp,
    In sp (calculate catalog inputs) ->
    (sp_feasible sp = true <->
     (sp_reasons sp = [] \/
      exists r, sp_reasons sp = [r] /\ JS.includes "accounts" r = true)) /\
    (In overBudget (sp_reasons sp) -> sp_feasible sp = false) /\
    (forall k,
       sp_reasons sp = [requiresAccounts k] \/
       sp_reasons sp = [challengingDeadline k] ->
       sp_feasible sp = true).
Proof.
  intros catalog inputs sp H.
  destruct (calculate_In _ _ _ H) as (platform & plan & option & _ & _ & _ & ->).
  unfold evaluate. cbn [sp_feasible sp_reasons].
  split; [apply feasibleOf_spec|]. split; [apply overBudget_infeasible|].
  intros k [-> | ->]; apply feasibleOf_spec; right; eexists; split;
    try reflexivity.
  - apply requiresAccounts_mentions.
  - apply challengingDeadline_mentions.
Qed.

(** C1 at the last entry of the ranking for a budget of 100 USD, which is
    over budget. *)
Lemma feasibility_policy_witness :
  sp_feasible (nth 33 tightRanking (evaluate tightInputs Catalog.klingAI
                 Catalog.klingStandard Catalog.klingStandard5s)) = false.
Proof.
  assert (Hin : In (nth 33 tightRanking (evaluate tightInputs Catalog.klingAI
                      Catalog.klingStandard Catalog.klingStandard5s))
                  (calculate DETAILED_PLATFORM_DATA tightInputs)).
  { apply nth_In. vm_compute. lia. }
  apply (proj1 (proj2 (feasibility_policy DETAILED_PLATFORM_DATA tightInputs _ Hin))).
  vm_compute. left. reflexivity.
Defined.

(* ================================================================= *)
(** ** The primary pick *)

Section PrimaryPick.

Lemma flat_map_length_sum {A B : Type} (f : A -> list B) (l : list A) :
  List.length (flat_map f l) = list_sum (map (fun x => List.length (f x)) l).
Proof.
  induction l as [|x rest IH]; simpl.
  - reflexivity.
  - rewrite length_app, IH. reflexivity.
Qed.

Lemma scoredOptions_length (catalog : list Platform) (inputs : RecommendationInputs) :
  List.length (scoredOptions catalog inputs) = tripleCount catalog.
Proof.
  unfold scoredOptions, tripleCount. rewrite flat_map_length_sum.
  f_equal. apply map_ext. intro pl. rewrite flat_map_length_sum.
  f_equal. apply map_ext. intro p. apply length_map.
Qed.

Lemma calculate_length (catalog : list Platform) (inputs : RecommendationInputs) :
  List.length (calculate catalog inputs) = tripleCount catalog.
Proof.
  rewrite (Permutation_length (calculate_perm catalog inputs)).
  apply scoredOptions_length.
Qed.

Lemma find_first {A : Type} (f : A -> bool) (l : list A) (p : A) :
  find f l = Some p ->
  exists l1 l2, l = (l1 ++ p :: l2)%list /\
    forallb (fun x => negb (f x)) l1 = true /\ f p = true.
Proof.
  induction l as [|x rest IH]; simpl; [discriminate|].
  destruct (f x) eqn:E.
  - intro H. injection H as <-. exists [], rest. auto.
  - intro H. destruct (IH H) as (l1 & l2 & -> & H1 & H2).
    exists (x :: l1), l2. simpl. rewrite E, H1. auto.
Qed.

Lemma find_none {A : Type} (f : A -> bool) (l : list A) :
  find f l = None -> forallb (fun x => negb (f x)) l = true.
Proof.
  induction l as [|x rest IH]; simpl; [reflexivity|].
  destruct (f x); [discriminate|]. exact IH.
Qed.

(** In a list ordered by feasibility the first feasible entry is the head. *)
Lemma first_feasible_is_head (l1 l2 : list ScoredPlatform) (p : ScoredPlatform) :
  StronglySorted feasibleFirst (l1 ++ p :: l2) ->
  forallb (fun x => negb (sp_feasible x)) l1 = true ->
  sp_feasible p = true -> l1 = [].
Proof.
  destruct l1 as [|x l1]; [reflexivity|]. simpl. intros Hs Hl Hp.
  apply andb_prop in Hl. destruct Hl as [Hx _].
  apply negb_true_iff in Hx.
  apply StronglySorted_inv in Hs. destruct Hs as [_ Hs].
  rewrite Forall_forall in Hs.
  assert (Hin : In p (l1 ++ p :: l2)) by (apply in_or_app; right; left; reflexivity).
  pose proof (Hs p Hin Hx) as K. rewrite K in Hp. discriminate.
Qed.

End PrimaryPick.

(** C10: over the built-in catalog (34 triples), for every request the
    primary recommendation is present; it is the first feasible entry of the
    ranked list, or the first entry when no entry is feasible; and in both
    cases it is the head of the ranked list. *)
Theorem primary_recommendation_present :
  forall inputs,
    exists p,
      primaryRecommendation DETAILED_PLATFORM_DATA inputs = Some p /\
      ((exists l1 l2,
          calculate DETAILED_PLATFORM_DATA inputs = (l1 ++ p :: l2)%list /\
          forallb (fun x => negb (sp_feasible x)) l1 = true /\
          sp_feasible p = true) \/
       (forallb (fun x => negb (sp_feasible x))
          (calculate DETAILED_PLATFORM_DATA inputs) = true /\
        nth_error (calculate DETAILED_PLATFORM_DATA inputs) 0 = Some p)) /\
      nth_error (calculate DETAILED_PLATFORM_DATA inputs) 0 = Some p.
Proof.
  intro inputs. unfold primaryRecommendation.
  pose proof (calculate_length DETAILED_PLATFORM_DATA inputs) as Hlen.
  pose proof (calculate_feasibleFirst DETAILED_PLATFORM_DATA inputs) as Hs.
  change (tripleCount DETAILED_PLATFORM_DATA) with 34%nat in Hlen.
  destruct (find sp_feasible (calculate DETAILED_PLATFORM_DATA inputs)) as [p|] eqn:E.
  - exists p. split; [reflexivity|].
    destruct (find_first _ _ _ E) as (l1 & l2 & Hsplit & H1 & H2).
    split.
    + left. exists l1, l2. auto.
    + rewrite Hsplit in Hs.
      rewrite (first_feasible_is_head l1 l2 p Hs H1 H2) in Hsplit.
      rewrite Hsplit. reflexivity.
  - destruct (calculate DETAILED_PLATFORM_DATA inputs) as [|x rest] eqn:Er;
      [discriminate|].
    exists x. split; [reflexivity|]. split; [|reflexivity].
    right. split; [|reflexivity]. apply find_none. exact E.
Qed.

(* ================================================================= *)
(** ** Scenarios and unit conversion *)

(** C5: in cost mode with a target of 10 minutes, a plan at 10 USD a month
    with 660 credits and an option at 10 credits per clip of at most 5
    seconds give 120 clips, 1200 units, 2 subscriptions and a total cost of
    20 USD. *)
Theorem kling_standard_5s_scenario :
  forall inputs platform plan option,
    calcMode inputs = mode_cost -> duration inputs = int 10 ->
    monthlyCost plan = int 10 -> quota plan = int 660 ->
    quotaUnit plan = qu_credits ->
    cost option = Single (int 10) -> costUnit option = cu_credits ->
    maxDurationSec option = int 5 ->
    clipsNeededFor (duration inputs) option = int 120 /\
    totalUnitsNeeded (duration inputs) option = int 1200 /\
    plansNeeded (duration inputs) option plan = int 2 /\
    sp_totalCost (evaluate inputs platform plan option) = int 20.
Proof.
  intros inputs platform plan option Hmode Hdur Hmc Hq Hqu Hc Hcu Hm.
  assert (C : clipsNeededFor (duration inputs) option = int 120).
  { unfold clipsNeededFor. rewrite Hdur, Hm. reflexivity. }
  assert (U : totalUnitsNeeded (duration inputs) option = int 1200).
  { unfold totalUnitsNeeded. rewrite C, Hcu, Hc. reflexivity. }
  assert (P : plansNeeded (duration inputs) option plan = int 2).
  { unfold plansNeeded. rewrite U, Hq. reflexivity. }
  repeat split; try assumption.
  unfold evaluate. cbn [sp_totalCost]. unfold modeOutcome. rewrite Hmode.
  unfold costModeOutcome. cbn [totalCost]. unfold costModeTotalCost.
  rewrite Hqu, P, Hq, Hmc. reflexivity.
Qed.

(** C5 at the Kling AI / Standard / Standard 5s triple of the built-in
    catalog and the initial request. *)
Lemma kling_standard_5s_scenario_witness :
  clipsNeededFor (duration defaultInputs) Catalog.klingStandard5s = int 120 /\
  totalUnitsNeeded (duration defaultInputs) Catalog.klingStandard5s = int 1200 /\
  plansNeeded (duration defaultInputs) Catalog.klingStandard5s
    Catalog.klingStandard = int 2 /\
  sp_totalCost (evaluate defaultInputs Catalog.klingAI Catalog.klingStandard
                  Catalog.klingStandard5s) = int 20.
Proof.
  exact (kling_standard_5s_scenario defaultInputs Catalog.klingAI
           Catalog.klingStandard Catalog.klingStandard5s
           eq_refl eq_refl eq_refl eq_refl eq_refl eq_refl eq_refl eq_refl).
Defined.



(** C8: in duration mode, on an unlimited plan with an option that is not
    billed per second, a budget of at least the monthly price gives a total
    cost of exactly the monthly price, an infinite raw number of seconds, and
    an achievable duration equal to the deadline ceiling
    [maxClipsInDeadline * maxDurationSec / 60]; a budget below the monthly
    price gives 0 achievable seconds. *)
Theorem unlimited_flat_fee_duration :
  forall inputs platform plan option,
    calcMode inputs = mode_duration ->
    quotaUnit plan = qu_unlimited ->
    costUnit option <> cu_per_second ->
    (JS.ge (budget inputs) (monthlyCost plan) = true ->
     sp_totalCost (evaluate inputs platform plan option) = monthlyCost plan /\
     bu_totalVideoSeconds (durationModeBudget (budget inputs) option plan) = PInf /\
     sp_achievableDuration (evaluate inputs platform plan option) =
       maxClipsInDeadline (deadline inputs) plan platform (expertise inputs)
       * maxDurationSec option / int 60) /\
    (JS.lt (budget inputs) (monthlyCost plan) = true ->
     bu_totalVideoSeconds (durationModeBudget (budget inputs) option plan) = int 0).
Proof.
  intros inputs platform plan option Hmode Hqu Hcu.
  assert (Hcu' : CostUnit_eqb (costUnit option) cu_per_second = false)
    by (destruct (costUnit option); try reflexivity; contradiction).
  assert (Hb : durationModeBudget (budget inputs) option plan =
               if JS.ge (budget inputs) (monthlyCost plan)
               then mkBudgetUse (monthlyCost plan) PInf None
               else mkBudgetUse (budget inputs) (int 0) None).
  { unfold durationModeBudget. rewrite Hqu, Hcu'. reflexivity. }
  split.
  - intro Hge. rewrite Hge in Hb.
    unfold evaluate. cbn [sp_totalCost sp_achievableDuration].
    unfold modeOutcome. rewrite Hmode. unfold durationModeOutcome.
    cbn [totalCost achievableDuration]. rewrite Hb.
    cbn [bu_totalCost bu_totalVideoSeconds].
    split; [reflexivity|]. split; [reflexivity|].
    change (JS.div PInf (int 60)) with PInf.
    rewrite JSFacts.min_PInf_l. reflexivity.
  - intro Hlt. rewrite (JSFacts.lt_not_ge _ _ Hlt) in Hb. rewrite Hb. reflexivity.
Qed.

(** C8 at an unlimited flat-fee plan of 48 USD a month with a budget of
    48 USD. *)
Lemma unlimited_flat_fee_duration_witness :
  sp_totalCost (evaluate budget48 flatFeePlatform flatFee48 Catalog.soraPlus10)
    = int 48 /\
  bu_totalVideoSeconds (durationModeBudget (budget budget48) Catalog.soraPlus10
                          flatFee48) = PInf /\
  sp_achievableDuration (evaluate budget48 flatFeePlatform flatFee48
                           Catalog.soraPlus10) =
    maxClipsInDeadline (deadline budget48) flatFee48 flatFeePlatform
      (expertise budget48)
    * maxDurationSec Catalog.soraPlus10 / int 60.
Proof.
  apply (unlimited_flat_fee_duration budget48 flatFeePlatform flatFee48
           Catalog.soraPlus10 eq_refl eq_refl).
  - discriminate.
  - reflexivity.
Defined.

(* ================================================================= *)
(** ** Round trip between duration mode and cost mode *)

Section RoundTrip.

Lemma roundTripCost_unfold (i : RecommendationInputs) (pl : Platform) (p : Plan)
    (o : Option) :
  roundTripCost i pl p o =
  costModeTotalCost
    (JS.min (bu_totalVideoSeconds (durationModeBudget (budget i) o p) / int 60)
       (maxDurationFromTime (deadline i) o p pl (expertise i)))
    o p.
Proof. reflexivity. Qed.

(** Rounding the clips and then the subscriptions up stays within [P]
    subscriptions when the target is at most [N] whole clips that cost
    exactly [P] quotas. *)
Lemma roundtrip_arith (b mc qt c x N : Q) (P : Z) :
  (0 < mc)%Q -> (0 < qt)%Q -> (0 < c)%Q ->
  (x <= N)%Q -> (N == inject_Z (Qfloor N))%Q ->
  (N * c / qt == inject_Z P)%Q -> (inject_Z P * mc <= b)%Q ->
  (inject_Z (Qceiling (inject_Z (Qceiling x) * c / qt)) * mc <= b)%Q.
Proof.
  intros Hmc Hqt Hc Hx HN HP Hb.
  assert (H1 : (Qceiling x <= Qfloor N)%Z).
  { rewrite <- (Qceiling_Z (Qfloor N)). apply Qceiling_resp_le.
    rewrite <- HN. exact Hx. }
  assert (H2 : (inject_Z (Qceiling x) * c / qt <= inject_Z P)%Q).
  { rewrite <- HP. unfold Qdiv.
    apply Qmult_le_compat_r;
      [|apply Qinv_le_0_compat; apply Qlt_le_weak; exact Hqt].
    apply Qmult_le_compat_r; [|apply Qlt_le_weak; exact Hc].
    rewrite HN. rewrite <- Zle_Qle. exact H1. }
  assert (H3 : (Qceiling (inject_Z (Qceiling x) * c / qt) <= P)%Z).
  { rewrite <- (Qceiling_Z P). apply Qceiling_resp_le. exact H2. }
  apply (Qle_trans _ (inject_Z P * mc)); [|exact Hb].
  apply Qmult_le_compat_r; [|apply Qlt_le_weak; exact Hmc].
  rewrite <- Zle_Qle. exact H3.
Qed.

Lemma min_le_first (t u : Q) :
  exists a, JS.min (Fin t) (Fin u) = Fin a /\ (a <= t)%Q.
Proof.
  rewrite JSFacts.min_fin. destruct (JS.lt (Fin t) (Fin u)) eqn:E.
  - exists t. split; [reflexivity | apply Qle_refl].
  - exists u. split; [reflexivity|]. apply JSFacts.lt_fin_false in E. exact E.
Qed.

End RoundTrip.

(** In exact arithmetic already the round trip can exceed the budget: on
    the Leonardo AI (Web App) Apprentice plan (10 USD, 8500 tokens) with
    Motion 1.0 (45 tokens per clip of 3 seconds) and a budget of 10 USD,
    duration mode reports 8500/45 clips' worth of video; cost mode rounds
    this up to 189 clips, 8505 tokens, 2 subscriptions: 20 USD, above the
    budget. *)
Lemma exact_roundtrip_exceeds_budget :
  QuotaUnit_eqb (quotaUnit Catalog.leoApprentice) qu_unlimited = false /\
  JS.gt (quota Catalog.leoApprentice) (int 0) = true /\
  JS.gt (monthlyCost Catalog.leoApprentice) (int 0) = true /\
  CostUnit_eqb (costUnit Catalog.leoApprenticeMotion1) cu_ratio = false /\
  JS.gt (getAverage (cost Catalog.leoApprenticeMotion1)) (int 0) = true /\
  roundTripCost budget10 Catalog.leonardoWeb Catalog.leoApprentice
    Catalog.leoApprenticeMotion1 = int 20 /\
  JS.le (roundTripCost budget10 Catalog.leonardoWeb Catalog.leoApprentice
           Catalog.leoApprenticeMotion1) (budget budget10) = false.
Proof. vm_compute. repeat split. Qed.

(** In exact arithmetic: for a well-formed quota-based plan (quota > 0,
    monthly price > 0), an option whose cost unit is not ratio and whose
    average cost is positive, and a non-negative budget, if the affordable
    quota [floor(budget / monthlyCost) * quota] buys a whole number of clips,
    then feeding the achievable duration of duration mode back into cost mode
    gives a total cost of at most the budget.  The rounded arithmetic of the
    program does not keep this: see [whole_clips_round_up] below. *)
Theorem exact_roundtrip_whole_clips :
  forall inputs platform plan option,
    wfInputs inputs = true -> wfPlatformFields platform = true ->
    wfPlanFields plan = true -> wfOption option = true ->
    JS.le (int 0) (budget inputs) = true ->
    QuotaUnit_eqb (quotaUnit plan) qu_unlimited = false ->
    JS.gt (quota plan) (int 0) = true ->
    JS.gt (monthlyCost plan) (int 0) = true ->
    CostUnit_eqb (costUnit option) cu_ratio = false ->
    JS.gt (getAverage (cost option)) (int 0) = true ->
    JS.isInteger (JS.floor (budget inputs / monthlyCost plan) * quota plan
                  / getAverage (cost option)) = true ->
    JS.le (roundTripCost inputs platform plan option) (budget inputs) = true.
Proof.
  intros inputs platform plan option Hi Hpl Hp Ho Hb0 Hqu Hqt Hmc Hcu Hc Hint.
  destruct (wfInputs_inv _ Hi) as [(d & Hd & Hdpos) _ (b & Hb) _ _].
  destruct (wfPlanFields_inv _ Hp) as [(mc & Hmc' & _) (qt & Hqt' & _) _ _].
  destruct (wfOption_inv _ Ho) as [(m & Hm & Hmpos) (c & Hc' & _)].
  destruct (maxDurationFromTime_fin option plan platform Hp Ho d (expertise inputs))
    as (mdt & Hmdt).
  rewrite roundTripCost_unfold.
  rewrite Hb, Hmc', Hqt', Hc', Hd in *. rewrite Hmdt.
  apply JSFacts.gt_fin in Hqt, Hmc, Hc. apply JSFacts.le_fin in Hb0.
  unfold inject_Z in Hqt, Hmc, Hc, Hb0.
  (* the cost side, for any finite target *)
  assert (Cost : forall a,
            costModeTotalCost (Fin a) option plan =
            Fin (inject_Z (Qceiling
                   (inject_Z (Qceiling (a * inject_Z 60 / m)) * c / qt)) * mc)).
  { intro a. unfold costModeTotalCost, plansNeeded, totalUnitsNeeded, clipsNeededFor.
    rewrite Hqu, Hcu, Hqt', Hmc', Hc', Hm.
    assert (G : JS.gt (Fin qt) (int 0) = true) by (apply JSFacts.gt_fin; exact Hqt).
    rewrite G. fin_lits. fin_eval. reflexivity. }
  (* the duration side: at most [N] clips, costing [P] subscriptions *)
  assert (Dur : exists (v N : Q) (P : Z),
            bu_totalVideoSeconds (durationModeBudget (Fin b) option plan) = Fin v /\
            (v == N * m)%Q /\ (N == inject_Z (Qfloor N))%Q /\
            (N * c / qt == inject_Z P)%Q /\ (inject_Z P * mc <= b)%Q).
  { unfold durationModeBudget. rewrite Hqu, Hcu, Hmc', Hqt', Hc', Hm.
    assert (G : JS.gt (Fin mc) (int 0) = true) by (apply JSFacts.gt_fin; exact Hmc).
    rewrite G. fin_div. cbn [JS.floor]. unfold JS.ofZ.
    destruct (JS.gt (Fin (inject_Z (Qfloor (b / mc)))) (int 0)) eqn:Epa.
    - assert (G2 : JS.gt (Fin c) (int 0) = true) by (apply JSFacts.gt_fin; exact Hc).
      cbn [bu_totalVideoSeconds]. rewrite G2. cbn [JS.mul]. fin_div. cbn [JS.mul].
      exists (inject_Z (Qfloor (b / mc)) * qt / c * m)%Q,
             (inject_Z (Qfloor (b / mc)) * qt / c)%Q, (Qfloor (b / mc)).
      split; [reflexivity|]. split; [apply Qeq_refl|]. split; [|split].
      + revert Hint. fin_eval. unfold JS.isInteger. intro Hint.
        apply Qeq_bool_iff in Hint. exact Hint.
      + field. split; pos_nonzero.
      + assert (F : (inject_Z (Qfloor (b / mc)) <= b / mc)%Q) by apply Qfloor_le.
        assert (E : (b / mc * mc == b)%Q).
        { field. intro K. rewrite K in Hmc. apply (Qlt_irrefl 0 Hmc). }
        apply (Qle_trans _ (b / mc * mc)); [|rewrite E; apply Qle_refl].
        apply Qmult_le_compat_r; [exact F|].
        apply Qlt_le_weak. exact Hmc.
    - cbn [bu_totalVideoSeconds].
      exists (inject_Z 0), 0%Q, 0%Z. split; [reflexivity|].
      split; [unfold inject_Z; ring|]. split; [reflexivity|]. split.
      + unfold inject_Z. field. intro K. rewrite K in Hqt.
        apply (Qlt_irrefl 0 Hqt).
      + unfold inject_Z. rewrite Qmult_0_l. exact Hb0. }
  destruct Dur as (v & N & P & -> & Hv & HN & HP & HPb).
  fin_lits. fin_div.
  destruct (min_le_first (v / inject_Z 60) mdt) as (a & -> & Ha).
  rewrite Cost. apply JSFacts.le_fin.
  apply (roundtrip_arith b mc qt c _ N P); try assumption.
  apply Qle_shift_div_r; [exact Hmpos|]. rewrite <- Hv.
  apply (Qle_trans _ (v / inject_Z 60 * inject_Z 60)).
  - apply Qmult_le_compat_r; [exact Ha | discriminate].
  - assert (E : (v / inject_Z 60 * inject_Z 60 == v)%Q)
      by (unfold inject_Z; field).
    rewrite E. apply Qle_refl.
Qed.

(** The same at Kling AI / Standard / Standard 5s and the initial request
    (budget 1000 USD: 100 subscriptions, 66000 credits, 6600 clips). *)
Lemma exact_roundtrip_whole_clips_example :
  JS.le (roundTripCost defaultInputs Catalog.klingAI Catalog.klingStandard
           Catalog.klingStandard5s) (budget defaultInputs) = true.
Proof.
  apply (exact_roundtrip_whole_clips defaultInputs Catalog.klingAI
           Catalog.klingStandard Catalog.klingStandard5s); reflexivity.
Defined.

(* ================================================================= *)
(** ** Plans with zero quota that are not marked unlimited *)

Section ZeroQuota.

Lemma zero_not_gt (x : num) :
  JS.strictEq x (int 0) = true -> JS.gt x (int 0) = false.
Proof.
  destruct x as [q| | |]; try discriminate. intro H.
  apply Qeq_bool_iff in H. apply JSFacts.gt_fin_false. rewrite H. apply Qle_refl.
Qed.

(** The cost term of the composite score is at most 15. *)
Lemma costScore_le_15 (cps : num) : JS.le (costScore cps) (int 15) = true.
Proof.
  unfold costScore.
  destruct (JS.gt cps (int 0) && negb (JS.strictEq cps PInf)) eqn:E;
    [|reflexivity].
  apply andb_prop in E. destruct E as [E E'].
  destruct cps as [a| | |]; try discriminate.
  apply JSFacts.gt_fin in E. unfold inject_Z in E.
  fin_lits. fin_eval. rewrite JSFacts.max_fin.
  assert (Hx : (0 < a / inject_Z 5)%Q).
  { apply Qlt_shift_div_l; [reflexivity|]. rewrite Qmult_0_l. exact E. }
  set (x := (a / inject_Z 5)%Q) in *.
  destruct (JS.lt (Fin (inject_Z 0)) (Fin (inject_Z 1 + - x))); cbn [JS.mul];
    apply JSFacts.le_fin; unfold inject_Z in *; [lra | discriminate].
Qed.

End ZeroQuota.

(** C6, as stated, does not hold: of two plans that differ in their quota
    only (660 credits, 0 credits without the unlimited marker), evaluated
    with the same platform, option and cost-mode request (budget 5 USD, so
    both are infeasible), the zero-quota one has an infinite cost per second
    and total cost, yet a strictly higher composite score, and is ranked
    first although it comes second in the catalog. *)
Lemma zero_quota_outranks_metered :
  calculateCostPerSecondUSD Catalog.klingStandard5s zeroQuotaPlan = PInf /\
  JS.isFin (calculateCostPerSecondUSD Catalog.klingStandard5s meteredPlan) = true /\
  sp_totalCost (evaluate budget5 twoPlanPlatform zeroQuotaPlan
                  Catalog.klingStandard5s) = PInf /\
  JS.isFin (sp_totalCost (evaluate budget5 twoPlanPlatform meteredPlan
                            Catalog.klingStandard5s)) = true /\
  sp_feasible (evaluate budget5 twoPlanPlatform zeroQuotaPlan
                 Catalog.klingStandard5s) =
  sp_feasible (evaluate budget5 twoPlanPlatform meteredPlan
                 Catalog.klingStandard5s) /\
  JS.gt (sp_score (evaluate budget5 twoPlanPlatform zeroQuotaPlan
                     Catalog.klingStandard5s))
        (sp_score (evaluate budget5 twoPlanPlatform meteredPlan
                     Catalog.klingStandard5s)) = true /\
  calculate [twoPlanPlatform] budget5 =
    [ evaluate budget5 twoPlanPlatform zeroQuotaPlan Catalog.klingStandard5s;
      evaluate budget5 twoPlanPlatform meteredPlan Catalog.klingStandard5s ].
Proof. vm_compute. repeat split. Qed.

(** C6, amended: for a plan with quota 0 that is not marked unlimited and an
    option that is not billed per second, the normalized cost per second and
    the cost-mode total cost are [Infinity]; the cost term of the composite
    score is then the full 15 points, the largest value the term takes; in
    cost mode with a finite budget the triple is over budget, hence
    infeasible, and no entry ranked after it is feasible. *)
Theorem zero_quota_infinite_cost :
  forall inputs platform plan option,
    JS.strictEq (quota plan) (int 0) = true ->
    QuotaUnit_eqb (quotaUnit plan) qu_unlimited = false ->
    CostUnit_eqb (costUnit option) cu_per_second = false ->
    calculateCostPerSecondUSD option plan = PInf /\
    costModeTotalCost (duration inputs) option plan = PInf /\
    costScore (calculateCostPerSecondUSD option plan) = int 15 /\
    (forall cps, JS.le (costScore cps) (int 15) = true) /\
    (calcMode inputs = mode_cost -> JS.isFin (budget inputs) = true ->
     sp_totalCost (evaluate inputs platform plan option) = PInf /\
     In overBudget (sp_reasons (evaluate inputs platform plan option)) /\
     sp_feasible (evaluate inputs platform plan option) = false /\
     forall catalog l1 l2 b l3,
       calculate catalog inputs =
         (l1 ++ evaluate inputs platform plan option :: l2 ++ b :: l3)%list ->
       sp_feasible b = false).
Proof.
  intros inputs platform plan option Hq Hqu Hcu.
  assert (Hcps : calculateCostPerSecondUSD option plan = PInf).
  { unfold calculateCostPerSecondUSD. rewrite Hcu, Hqu, Hq. reflexivity. }
  assert (Htot : costModeTotalCost (duration inputs) option plan = PInf).
  { unfold costModeTotalCost. rewrite Hqu, (zero_not_gt _ Hq). reflexivity. }
  split; [exact Hcps|]. split; [exact Htot|].
  split; [rewrite Hcps; reflexivity|]. split; [apply costScore_le_15|].
  intros Hmode Hb. destruct (isFin_inv _ Hb) as (b & Hb').
  assert (Hin : In overBudget (sp_reasons (evaluate inputs platform plan option))).
  { unfold evaluate. cbn [sp_reasons]. unfold modeOutcome. rewrite Hmode.
    unfold costModeOutcome. cbn [reasons]. rewrite Htot, Hb'.
    apply in_or_app. right. left. reflexivity. }
  assert (Hinf : sp_feasible (evaluate inputs platform plan option) = false).
  { unfold evaluate in *. cbn [sp_feasible sp_reasons] in *.
    apply overBudget_infeasible. exact Hin. }
  split; [|split; [exact Hin | split; [exact Hinf|]]].
  - unfold evaluate. cbn [sp_totalCost]. unfold modeOutcome. rewrite Hmode.
    exact Htot.
  - intros catalog l1 l2 b0 l3 Hsplit.
    pose proof (calculate_feasibleFirst catalog inputs) as Hs.
    rewrite Hsplit in Hs. apply StronglySorted_pair in Hs.
    apply Hs. exact Hinf.
Qed.

(** C6, amended, at the zero-quota plan with a budget of 5 USD. *)
Lemma zero_quota_infinite_cost_witness :
  calculateCostPerSecondUSD Catalog.klingStandard5s zeroQuotaPlan = PInf /\
  costModeTotalCost (duration budget5) Catalog.klingStandard5s zeroQuotaPlan = PInf.
Proof.
  pose proof (zero_quota_infinite_cost budget5 twoPlanPlatform zeroQuotaPlan
                Catalog.klingStandard5s eq_refl eq_refl eq_refl) as H.
  split; [exact (proj1 H) | exact (proj1 (proj2 H))].
Defined.

(* ================================================================= *)
(** ** Facts about binary64 numbers *)

Module B64Facts.

Import SpecFloat FloatOps FloatAxioms.

(** Exchanging the operands of a comparison reverses its result. *)
Lemma SFcompare_swap (a b : spec_float) :
  SFcompare b a = option_map CompOpp (SFcompare a b).
Proof.
  destruct a as [sa|sa| |sa ma ea], b as [sb|sb| |sb mb eb]; cbn;
    try reflexivity;
    try (destruct sa; reflexivity); try (destruct sb; reflexivity);
    try (destruct sa, sb; reflexivity).
  destruct sa, sb; try reflexivity.
  - rewrite (Z.compare_antisym ea eb).
    destruct (ea ?= eb)%Z; cbn; try reflexivity.
    rewrite (Pos.compare_cont_antisym ma mb Eq). reflexivity.
  - rewrite (Z.compare_antisym ea eb).
    destruct (ea ?= eb)%Z; cbn; try reflexivity.
    rewrite (Pos.compare_cont_antisym ma mb Eq). cbn.
    destruct (Pos.compare_cont Eq ma mb); reflexivity.
Qed.

Lemma is_nan_false (x : float) : is_nan x = false -> Prim2SF x <> S754_nan.
Proof.
  unfold is_nan. rewrite eqb_spec. intros H K. rewrite K in H. discriminate.
Qed.

Lemma SFcompare_defined (a b : spec_float) :
  a <> S754_nan -> b <> S754_nan -> exists c, SFcompare a b = Some c.
Proof.
  intros Ha Hb.
  destruct a as [sa|sa| |sa ma ea]; try contradiction;
    destruct b as [sb|sb| |sb mb eb]; try contradiction;
    cbn [SFcompare]; eexists; reflexivity.
Qed.

(** Between two numbers, [x > y] is the negation of [x <= y]. *)
Lemma gt_not_leb (x y : float) :
  is_nan x = false -> is_nan y = false ->
  B64.gt x y = negb (x <=? y)%float.
Proof.
  intros Hx Hy. apply is_nan_false in Hx, Hy.
  unfold B64.gt. rewrite ltb_spec, leb_spec. unfold SFltb, SFleb.
  rewrite (SFcompare_swap (Prim2SF x) (Prim2SF y)).
  destruct (SFcompare_defined _ _ Hx Hy) as (c & ->).
  destruct c; reflexivity.
Qed.

End B64Facts.

(* ================================================================= *)
(** ** The time estimate and the deadline in binary64 *)

Section EstimateBinary64.

Lemma timeDays_from_numbers (dur : float) (o : Option) (p : Plan) (pl : Platform)
    (dl : float) (e : Level) :
  B64.timeDays (B64.calculateTimeRequirement dur o p pl dl e) =
  B64.timeDaysFrom (B64.ofNum (maxDurationSec o)) (B64.ofNum (avgTimePerClipMin p))
    (B64.pickParallel (canUseAPI pl e) p) (B64.ofNum (setupDays pl)) dur dl.
Proof.
  unfold B64.calculateTimeRequirement, B64.timeDaysFrom.
  destruct (dur <=? 0)%float; reflexivity.
Qed.

Lemma In_allEstimatorNumbers (catalog : list Platform) (pl : Platform) (p : Plan)
    (o : Option) (e : Level) :
  In pl catalog -> In p (plans pl) -> In o (options p) ->
  In (B64.estimatorNumbers pl p o e) (B64.allEstimatorNumbers catalog).
Proof.
  intros Hpl Hp Ho. unfold B64.allEstimatorNumbers.
  apply in_flat_map. exists pl. split; [exact Hpl|].
  apply in_flat_map. exists p. split; [exact Hp|].
  apply in_flat_map. exists o. split; [exact Ho|].
  apply in_map. destruct e; simpl; auto.
Qed.

Lemma wholeNumbers_In (lo z : Z) (n : nat) :
  (lo <= z < lo + Z.of_nat n)%Z -> In z (B64.wholeNumbers lo n).
Proof.
  intro H. unfold B64.wholeNumbers. apply in_map_iff.
  exists (Z.to_nat (z - lo)). split; [lia|]. apply in_seq. lia.
Qed.

(** Every triple of the built-in catalog, every expertise level, 1 to 300
    minutes and 1 to 365 days, evaluated. *)
Lemma deadlineKept_builtin :
  B64.deadlineKeptOn (B64.allEstimatorNumbers DETAILED_PLATFORM_DATA)
    (map B64.ofZ (B64.wholeNumbers 1 300)) (map B64.ofZ (B64.wholeNumbers 1 365)) = true.
Proof. vm_compute. reflexivity. Qed.

Lemma deadlineKeptOn_spec (ps : list (float * float * float * float))
    (durations deadlines : list float) :
  B64.deadlineKeptOn ps durations deadlines = true ->
  forall p n d, In p ps -> In n durations -> In d deadlines ->
    B64.deadlineKept p n d = true.
Proof.
  unfold B64.deadlineKeptOn. intros K p n d Hp Hn Hd.
  rewrite forallb_forall in K. specialize (K p Hp).
  rewrite forallb_forall in K. specialize (K n Hn).
  rewrite forallb_forall in K. exact (K d Hd).
Qed.

Lemma deadlineKept_whole (pl : Platform) (p : Plan) (o : Option) (e : Level) (n d : Z) :
  In pl DETAILED_PLATFORM_DATA -> In p (plans pl) -> In o (options p) ->
  (1 <= n <= 300)%Z -> (1 <= d <= 365)%Z ->
  B64.deadlineKept (B64.estimatorNumbers pl p o e) (B64.ofZ n) (B64.ofZ d) = true.
Proof.
  intros Hpl Hp Ho Hn Hd.
  apply (deadlineKeptOn_spec _ _ _ deadlineKept_builtin).
  - apply In_allEstimatorNumbers; assumption.
  - apply in_map. apply wholeNumbers_In. lia.
  - apply in_map. apply wholeNumbers_In. lia.
Qed.

(** Cost mode: whichever reasons are given, the triple is feasible exactly
    when it is not over budget. *)
Lemma costMode_feasible_iff_within_budget (inputs : B64.RecommendationInputs)
    (pl : Platform) (p : Plan) (o : Option) :
  feasibleOf (B64.reasons (B64.costModeOutcome inputs pl p o)) =
  negb (B64.gt (B64.totalCost (B64.costModeOutcome inputs pl p o)) (B64.budget inputs)).
Proof.
  unfold B64.costModeOutcome. cbn [B64.reasons B64.totalCost].
  destruct (B64.gt (B64.timeDays _) _);
    destruct (B64.gt (B64.costModeTotalCost _ _ _) _); cbn [app negb];
    try reflexivity.
  apply feasibleOf_spec. right. eexists. split; [reflexivity|].
  apply requiresAccounts_mentions.
Qed.

(** Duration mode: the only reason it can give keeps the triple feasible. *)
Lemma durationMode_always_feasible (inputs : B64.RecommendationInputs)
    (pl : Platform) (p : Plan) (o : Option) :
  feasibleOf (B64.reasons (B64.durationModeOutcome inputs pl p o)) = true.
Proof.
  unfold B64.durationModeOutcome. cbn [B64.reasons].
  destruct (_ && _); [|reflexivity].
  apply feasibleOf_spec. right. eexists. split; [reflexivity|].
  apply challengingDeadline_mentions.
Qed.

End EstimateBinary64.

(** C3, as stated, does not hold in the arithmetic of the program.  LTX
    Studio, Lite (Monthly) (one job at a time, 4 minutes per clip, one day of
    setup), Motion Standard (15 seconds per clip), 234 minutes of video and a
    deadline of 1.76 days: 936 clips take 8.8 days on one account, the
    quotient 8.8 / 1.76 is rounded to 5, and 8.8 / 5 is rounded to the
    binary64 value just above 1.76.  The estimate exceeds the deadline and
    cost mode gives the reason ['Requires 5 accounts']. *)
Lemma deadline_exceeded_by_rounding :
  In Catalog.ltxStudio DETAILED_PLATFORM_DATA /\
  In ltxLiteMonthly (plans Catalog.ltxStudio) /\
  In ltxLite (options ltxLiteMonthly) /\
  B64.gt 234 0 = true /\ B64.gt days176 0 = true /\
  B64.calculateTimeRequirement 234 ltxLite ltxLiteMonthly Catalog.ltxStudio
    days176 beginner = B64.mkTime (next_up days176) 5 /\
  (B64.timeDays (B64.calculateTimeRequirement 234 ltxLite ltxLiteMonthly
                   Catalog.ltxStudio days176 beginner) <=? days176)%float = false /\
  B64.gt (B64.timeDays (B64.calculateTimeRequirement 234 ltxLite ltxLiteMonthly
                          Catalog.ltxStudio days176 beginner)) days176 = true /\
  B64.reasons (B64.modeOutcome request176 Catalog.ltxStudio ltxLiteMonthly ltxLite)
  = ["Requires 5 accounts"%string].
Proof.
  split; [simpl; auto|].
  split; [left; reflexivity|].
  split; [left; reflexivity|].
  vm_compute. repeat split.
Qed.

(** The same estimate in exact arithmetic: 8.8 / 5 is 1.76, not above the
    deadline. *)
Example exact_arithmetic_at_176 :
  JS.same
    (timeDays (calculateTimeRequirement (int 234) ltxLite ltxLiteMonthly
                 Catalog.ltxStudio (dec 176 100) beginner))
    (dec 176 100) /\
  JS.gt
    (timeDays (calculateTimeRequirement (int 234) ltxLite ltxLiteMonthly
                 Catalog.ltxStudio (dec 176 100) beginner))
    (dec 176 100) = false.
Proof. vm_compute. split; reflexivity. Qed.

(** C3, amended.  (1) For every triple of the built-in catalog, every
    expertise level, every whole number of minutes from 1 to 300 and every
    whole number of days from 1 to 365, the [timeDays] returned by
    [calculateTimeRequirement] is at most the deadline, the guard
    [timeDays > deadline] is false, and cost mode gives no reason or only
    ['Over budget'].  For other deadlines the two rounded divisions can leave
    [timeDays] above the deadline, and the accounts-needed reason is then
    given.  (2) Whether it is given or not, for every request and every
    triple a cost-mode triple is feasible exactly when [totalCost > budget]
    is false, that is when [totalCost <= budget] if both are numbers; (3) a
    duration-mode triple is always feasible. *)
Theorem deadline_met_for_whole_days :
  (forall platform plan option expertise (n d : Z),
      In platform DETAILED_PLATFORM_DATA -> In plan (plans platform) ->
      In option (options plan) ->
      (1 <= n <= 300)%Z -> (1 <= d <= 365)%Z ->
      (B64.timeDays (B64.calculateTimeRequirement (B64.ofZ n) option plan platform
                       (B64.ofZ d) expertise) <=? B64.ofZ d)%float = true /\
      B64.gt (B64.timeDays (B64.calculateTimeRequirement (B64.ofZ n) option plan
                              platform (B64.ofZ d) expertise)) (B64.ofZ d) = false /\
      (forall inputs,
          B64.calcMode inputs = mode_cost ->
          B64.duration inputs = B64.ofZ n -> B64.deadline inputs = B64.ofZ d ->
          B64.expertise inputs = expertise ->
          B64.reasons (B64.modeOutcome inputs platform plan option) =
          if B64.gt (B64.totalCost (B64.modeOutcome inputs platform plan option))
               (B64.budget inputs)
          then [overBudget] else [])) /\
  (forall inputs platform plan option,
      B64.calcMode inputs = mode_cost ->
      B64.feasible inputs platform plan option =
        negb (B64.gt (B64.totalCost (B64.modeOutcome inputs platform plan option))
                (B64.budget inputs)) /\
      (is_nan (B64.totalCost (B64.modeOutcome inputs platform plan option)) = false ->
       is_nan (B64.budget inputs) = false ->
       B64.feasible inputs platform plan option =
         (B64.totalCost (B64.modeOutcome inputs platform plan option)
          <=? B64.budget inputs)%float)) /\
  (forall inputs platform plan option,
      B64.calcMode inputs = mode_duration ->
      B64.feasible inputs platform plan option = true).
Proof.
  split; [|split].
  - intros platform plan option expertise n d Hpl Hp Ho Hn Hd.
    pose proof (deadlineKept_whole platform plan option expertise n d
                  Hpl Hp Ho Hn Hd) as K.
    unfold B64.deadlineKept, B64.estimatorNumbers in K.
    rewrite <- timeDays_from_numbers in K.
    apply andb_prop in K. destruct K as [Kle Kgt].
    apply negb_true_iff in Kgt.
    split; [exact Kle|]. split; [exact Kgt|].
    intros inputs Hmode Hdur Hdl He.
    unfold B64.modeOutcome. rewrite Hmode.
    unfold B64.costModeOutcome. cbn [B64.reasons B64.totalCost].
    rewrite Hdur, Hdl, He, Kgt. reflexivity.
  - intros inputs platform plan option Hmode.
    assert (F : B64.feasible inputs platform plan option =
                negb (B64.gt (B64.totalCost (B64.modeOutcome inputs platform plan option))
                        (B64.budget inputs))).
    { unfold B64.feasible, B64.modeOutcome. rewrite Hmode.
      apply costMode_feasible_iff_within_budget. }
    split; [exact F|].
    intros Ht Hb. rewrite F, (B64Facts.gt_not_leb _ _ Ht Hb).
    apply negb_involutive.
  - intros inputs platform plan option Hmode.
    unfold B64.feasible, B64.modeOutcome. rewrite Hmode.
    apply durationMode_always_feasible.
Qed.

(** C3, amended, at the first triple of the built-in catalog (Kling AI,
    Standard, Standard 5s) with 10 minutes of video in 7 days. *)
Lemma deadline_met_for_whole_days_witness :
  (B64.timeDays (B64.calculateTimeRequirement (B64.ofZ 10) Catalog.klingStandard5s
                   Catalog.klingStandard Catalog.klingAI (B64.ofZ 7) beginner)
   <=? B64.ofZ 7)%float = true.
Proof.
  refine (proj1 (proj1 deadline_met_for_whole_days Catalog.klingAI
                   Catalog.klingStandard Catalog.klingStandard5s beginner 10%Z 7%Z
                   _ _ _ _ _)).
  - left. reflexivity.
  - left. reflexivity.
  - left. reflexivity.
  - lia.
  - lia.
Defined.

(* ================================================================= *)
(** ** Round trip between duration mode and cost mode in binary64 *)

Section RoundTripBinary64.





End RoundTripBinary64.


(** A whole number of clips does not help: Google Veo, Ultra Subscription
    (250 USD a month, 12500 credits), Veo 3 Quality (100 credits per clip of
    8 seconds) and a budget of 250 USD buy exactly 125 clips, 1000 seconds.
    The duration 1000/60 is rounded, times 60 and divided by 8 it comes back
    just above 125, and cost mode asks for 126 clips and 2 subscriptions,
    500 USD; in exact arithmetic the same round trip gives 250 USD. *)
Example whole_clips_round_up :
  B64.secondsBought 1 veoUltraQuality veoUltra = 1000%float /\
  B64.clipsNeededFor
    (B64.achievableDuration
       (B64.modeOutcome durationFor250 Catalog.googleVeo veoUltra veoUltraQuality))
    veoUltraQuality = 126%float /\
  B64.roundTripCost durationFor250 Catalog.googleVeo veoUltra veoUltraQuality
    = 500%float /\
  roundTripCost (withBudget (int 250) defaultInputs) Catalog.googleVeo veoUltra
    veoUltraQuality = int 250.
Proof. vm_compute. repeat split. Qed.



(* ================================================================= *)
(** ** Worked examples on the built-in catalog *)

Example requiresAccounts_3 : requiresAccounts (int 3) = "Requires 3 accounts"%string.
Proof. reflexivity. Qed.

Example challengingDeadline_Infinity :
  challengingDeadline PInf = "Challenging deadline: needs Infinity accounts"%string.
Proof. reflexivity. Qed.

(** Kling AI Standard 5s: 1080p (8), no tier bonus, reputation -0.5. *)
Example quality_klingStandard5s :
  JS.same (getQualityScore Catalog.klingStandard5s Catalog.klingStandard Catalog.klingAI)
    (dec 75 10).
Proof. vm_compute. reflexivity. Qed.

(** 120 clips at 1.5 minutes on 8 parallel jobs, plus half a day of setup. *)
Example time_klingStandard5s :
  JS.same
    (timeDays (calculateTimeRequirement (int 10) Catalog.klingStandard5s
                 Catalog.klingStandard Catalog.klingAI (int 7) beginner))
    (dec 546875 1000000) /\
  accountsNeeded (calculateTimeRequirement (int 10) Catalog.klingStandard5s
                    Catalog.klingStandard Catalog.klingAI (int 7) beginner) = int 1.
Proof. vm_compute. split; reflexivity. Qed.

(** The initial request ranks all 34 triples as feasible and picks Kling AI
    Premier, Professional 5s, at 92 USD. *)
Example primary_default :
  List.length (calculate DETAILED_PLATFORM_DATA defaultInputs) = 34%nat /\
  forallb sp_feasible (calculate DETAILED_PLATFORM_DATA defaultInputs) = true /\
  option_map (fun p => (sp_platformName p, sp_planName p, modelId (sp_option p),
                        sp_totalCost p))
    (primaryRecommendation DETAILED_PLATFORM_DATA defaultInputs)
  = Some ("Kling AI", "Premier", "kling-prm-5s", int 92)%string.
Proof. vm_compute. repeat split. Qed.

(** With a budget of 100 USD, 22 triples stay feasible. *)
Example tight_feasible_count :
  List.length (filter sp_feasible tightRanking) = 22%nat.
Proof. vm_compute. reflexivity. Qed.

(** The built-in catalog and the initial request are well formed. *)
Example builtin_well_formed :
  wfCatalog DETAILED_PLATFORM_DATA = true /\ wfInputs defaultInputs = true.
Proof. vm_compute. split; reflexivity. Qed.
